(** * SoftLayer.managers.network: the NetworkManager facade

    A shallow embedding of [SoftLayer/managers/network.py].  The manager only
    shapes request parameters (filters, masks, order containers) and forwards
    them to an injected RPC client, so the embedding has three layers:

    - [pyval]: the decoded values that travel to and from the client
      (None, booleans, integers, strings, lists, string-keyed dicts), with
      the Python operations the manager applies to them and the exceptions
      those operations raise;
    - [prog]: a program is a finite tree of remote calls; [exec] runs it
      against an arbitrary stateful client and records the calls made;
    - the manager's methods, one definition per method of the class. *)

From stdpp Require Import base option list strings gmap pretty.

Local Open Scope string_scope.
Local Open Scope list_scope.
Local Open Scope Z_scope.

Set Warnings "-register-all".

(** ** Python values and exceptions *)

Inductive pyval : Type :=
  | PNone
  | PBool (b : bool)
  | PInt (n : Z)
  | PStr (s : string)
  | PList (items : list pyval)
  | PDict (entries : list (string * pyval)).

Inductive exn : Type :=
  | KeyError (key : string)
  | IndexError
  | TypeError
  | AttributeError (attr : string)
  | UnboundLocalError (var : string)
  | RemoteFault (fault : string).

(** Outcome of a pure Python expression: a value or a raised exception. *)
Inductive result (A : Type) : Type :=
  | Ok (a : A)
  | Err (e : exn).
Arguments Ok {A} a.
Arguments Err {A} e.

#[global] Instance result_ret : MRet result := @Ok.
#[global] Instance result_bind : MBind result := fun A B f r =>
  match r with
  | Ok a => f a
  | Err e => Err e
  end.

#[global] Instance result_fmap : FMap result := fun A B f r =>
  match r with
  | Ok a => Ok (f a)
  | Err e => Err e
  end.

Definition is_ok {A} (r : result A) : bool :=
  match r with Ok _ => true | Err _ => false end.

(** ** Dicts: insertion-ordered, string-keyed association lists *)

Fixpoint dict_get {A} (k : string) (d : list (string * A)) : option A :=
  match d with
  | [] => None
  | (k', v) :: rest => if String.eqb k k' then Some v else dict_get k rest
  end.

(** [d[k] = v]: an existing key keeps its position, a new key goes last. *)
Fixpoint dict_set {A} (k : string) (v : A) (d : list (string * A))
  : list (string * A) :=
  match d with
  | [] => [(k, v)]
  | (k', v') :: rest =>
      if String.eqb k k' then (k, v) :: rest else (k', v') :: dict_set k v rest
  end.

Definition dict_has {A} (k : string) (d : list (string * A)) : bool :=
  match dict_get k d with Some _ => true | None => false end.

(** ** Python operations on values *)

(** [bool(v)], as used by [if v:], [not v] and [v or w]. *)
Definition truthy (v : pyval) : bool :=
  match v with
  | PNone => false
  | PBool b => b
  | PInt n => negb (n =? 0)
  | PStr s => negb (String.eqb s "")
  | PList l => match l with [] => false | _ => true end
  | PDict d => match d with [] => false | _ => true end
  end.

(** [v == s] for a string [s]. *)
Definition py_eq_str (v : pyval) (s : string) : bool :=
  match v with
  | PStr s' => String.eqb s' s
  | _ => false
  end.

(** [v[k]] for a string key [k]. *)
Definition getitem (v : pyval) (k : string) : result pyval :=
  match v with
  | PDict d => match dict_get k d with
               | Some x => Ok x
               | None => Err (KeyError k)
               end
  | _ => Err TypeError
  end.

Fixpoint string_nth (s : string) (i : nat) : option string :=
  match s, i with
  | EmptyString, _ => None
  | String c _, O => Some (String c EmptyString)
  | String _ s', S i' => string_nth s' i'
  end.

(** [v[i]] for a non-negative integer index [i]. *)
Definition getindex (v : pyval) (i : nat) : result pyval :=
  match v with
  | PList l => match l !! i with
               | Some x => Ok x
               | None => Err IndexError
               end
  | PStr s => match string_nth s i with
              | Some c => Ok (PStr c)
              | None => Err IndexError
              end
  | PDict _ => Err (KeyError (pretty (Z.of_nat i)))
  | _ => Err TypeError
  end.

(** [v.get(k, default)]: only dicts have the method. *)
Definition py_get (v : pyval) (k : string) (dflt : pyval) : result pyval :=
  match v with
  | PDict d => Ok (default dflt (dict_get k d))
  | _ => Err (AttributeError "get")
  end.

Fixpoint string_chars (s : string) : list pyval :=
  match s with
  | EmptyString => []
  | String c s' => PStr (String c EmptyString) :: string_chars s'
  end.

(** The sequence a [for] loop or a comprehension walks over. *)
Definition py_iter (v : pyval) : result (list pyval) :=
  match v with
  | PList l => Ok l
  | PDict d => Ok (map (fun kv => PStr (fst kv)) d)
  | PStr s => Ok (string_chars s)
  | _ => Err TypeError
  end.

(** [len(v)]. *)
Definition py_len (v : pyval) : result Z :=
  match v with
  | PList l => Ok (Z.of_nat (length l))
  | PDict d => Ok (Z.of_nat (length d))
  | PStr s => Ok (Z.of_nat (String.length s))
  | _ => Err TypeError
  end.

Fixpoint str_contains (needle hay : string) : bool :=
  String.prefix needle hay
  || match hay with
     | EmptyString => false
     | String _ hay' => str_contains needle hay'
     end.

(** [s in v] for a string [s]: substring of a string, element of a list,
    key of a dict. *)
Definition py_contains (s : string) (v : pyval) : result bool :=
  match v with
  | PStr hay => Ok (str_contains s hay)
  | PList l => Ok (existsb (fun x => py_eq_str x s) l)
  | PDict d => Ok (dict_has s d)
  | _ => Err TypeError
  end.

(** [str(q)] for the [quantity] argument: [None] or an integer. *)
Definition py_str (q : option Z) : string :=
  match q with
  | None => "None"
  | Some n => pretty n
  end.

(** ** Remote calls and programs *)

(** One operation invoked on a service proxy of the client, with its
    positional and its keyword arguments. *)
Record call : Type := Call {
  service : string;
  method : string;
  args : list pyval;
  kwargs : list (string * pyval);
}.

(** A manager method: it returns, raises, or invokes a remote operation and
    continues with the decoded response. *)
Inductive prog (A : Type) : Type :=
  | Ret (a : A)
  | Throw (e : exn)
  | Invoke (c : call) (k : pyval -> prog A).
Arguments Ret {A} a.
Arguments Throw {A} e.
Arguments Invoke {A} c k.

Fixpoint prog_bind {A B} (f : A -> prog B) (p : prog A) : prog B :=
  match p with
  | Ret a => f a
  | Throw e => Throw e
  | Invoke c k => Invoke c (fun r => prog_bind f (k r))
  end.

#[global] Instance prog_ret : MRet prog := @Ret.
#[global] Instance prog_mbind : MBind prog := @prog_bind.

(** A pure step inside a method: its exception becomes the method's. *)
Definition lift {A} (r : result A) : prog A :=
  match r with
  | Ok a => Ret a
  | Err e => Throw e
  end.

Definition invoke (c : call) : prog pyval := Invoke c Ret.

(** Running a program against a client.  The client is any state machine
    answering a call with a response or a failure; a failure propagates
    unchanged, since no method catches anything.  The run yields the calls
    issued, in order, the outcome, and the client's final state. *)
Section Exec.
Context {S : Type} (handle : S -> call -> result pyval * S).

Fixpoint exec {A} (p : prog A) (s : S) : list call * result A * S :=
  match p with
  | Ret a => ([], Ok a, s)
  | Throw e => ([], Err e, s)
  | Invoke c k =>
      match handle s c with
      | (Ok r, s') =>
          let '(t, o, s'') := exec (k r) s' in (c :: t, o, s'')
      | (Err e, s') => ([c], Err e, s')
      end
  end.

Definition trace {A} (p : prog A) (s : S) : list call := (exec p s).1.1.
Definition outcome {A} (p : prog A) (s : S) : result A := (exec p s).1.2.
End Exec.

(** A scripted client: it answers the n-th call with the n-th canned
    response and fails once the script is exhausted. *)
Definition scripted (s : list (result pyval)) (c : call)
  : result pyval * list (result pyval) :=
  match s with
  | [] => (Err (RemoteFault "no response"), [])
  | r :: rest => (r, rest)
  end.

(** ** NetworkManager.add_subnet *)

(** Lines 30-44: the category code, the quantity after its override, and the
    binding of the local [desc] ([None] while it is unbound). *)
Definition add_subnet_category (type : string) (quantity : option Z)
    (version : Z) : string * option Z * option string :=
  let category := "sov_sec_ip_addresses_priv" in
  if version =? 4 then
    if String.eqb type "global" then ("global_ipv4", Some 0, None)
    else if String.eqb type "public" then
      ("sov_sec_ip_addresses_pub", quantity, None)
    else (category, quantity, None)
  else
    let category := "static_ipv6_addresses" in
    if String.eqb type "global" then ("global_ipv6", Some 0, Some "Global")
    else if String.eqb type "public" then (category, quantity, Some "Portable")
    else (category, quantity, None).

(** Reading a local variable: unbound locals raise. *)
Definition read_local (var : string) (binding : option string)
  : result string :=
  match binding with
  | Some v => Ok v
  | None => Err (UnboundLocalError var)
  end.

(** [item['prices'][0]['id']] *)
Definition first_price (item : pyval) : result pyval :=
  prices ← getitem item "prices";
  price ← getindex prices 0;
  getitem price "id".

(** Lines 49-52: the test the loop applies to one catalog item.  [and] and
    [or] evaluate left to right and stop early, and [desc in ...] reads
    [desc] before it subscripts the item. *)
Definition item_matches (category quantity : string) (version : Z)
    (desc : option string) (item : pyval) : result bool :=
  item_category ← py_get item "itemCategory" (PDict []);
  category_code ← py_get item_category "categoryCode" PNone;
  if py_eq_str category_code category then
    capacity ← getitem item "capacity";
    if py_eq_str capacity quantity then
      if version =? 4 then Ok true
      else if version =? 6 then
        d ← read_local "desc" desc;
        description ← getitem item "description";
        py_contains d description
      else Ok false
    else Ok false
  else Ok false.

(** Lines 48-53: the loop over the catalog, threading [price_id]. *)
Fixpoint scan_items (category quantity : string) (version : Z)
    (desc : option string) (items : list pyval) (price_id : pyval)
  : result pyval :=
  match items with
  | [] => Ok price_id
  | item :: rest =>
      hit ← item_matches category quantity version desc item;
      price_id' ← (if (hit : bool) then first_price item else Ok price_id);
      scan_items category quantity version desc rest price_id'
  end.

(** Lines 55-62: the order container before its complex type is set. *)
Definition add_subnet_order (type : string) (vlan_id price_id : pyval)
  : list (string * pyval) :=
  let order := [("packageId", PInt 0);
                ("prices", PList [PDict [("id", price_id)]]);
                ("quantity", PInt 1)] in
  if negb (String.eqb type "global")
  then dict_set "endPointVlanId" vlan_id order
  else order.

Definition catalog_call : call :=
  Call "Product_Package" "getItems" []
       [("id", PInt 0); ("mask", PStr "mask[itemCategory]")].

Definition order_complex_type : string :=
  "SoftLayer_Container_Product_Order_Network_Subnet".

Definition add_subnet (type : string) (quantity : option Z) (vlan_id : pyval)
    (version : Z) (test_order : bool) : prog pyval :=
  let '(category, quantity, desc) :=
    add_subnet_category type quantity version in
  let quantity := py_str quantity in
  response ← invoke catalog_call;
  items ← lift (py_iter response);
  price_id ← lift (scan_items category quantity version desc items PNone);
  let order := add_subnet_order type vlan_id price_id in
  if negb (truthy price_id) then Ret PNone
  else
    let func := if test_order then "verifyOrder" else "placeOrder" in
    let order := dict_set "complexType" (PStr order_complex_type) order in
    invoke (Call "Product_Order" func [PDict order] []).

(** ** Helpers of SoftLayer.utils *)

(** Modelled from the spec: the [NestedDict] class of [SoftLayer.utils],
    which is imported by the manager but is not among the sources.  The spec
    describes the filter as "a nested mapping mirroring the remote service's
    filterable field hierarchy (e.g., subnets.datacenter.name) ... keys unique
    per nesting level", built from the caller's filter and extended by
    assignments at a path.  [NestedDict_new] wraps a mapping;
    [NestedDict_set] is the assignment [d[k1]...[kn] = v]: levels that are
    missing on the way are created empty, a level that exists and is not a
    mapping cannot be subscripted; [to_dict] gives back the plain mapping. *)
Definition NestedDict_new (v : pyval) : result pyval :=
  match v with
  | PDict d => Ok (PDict d)
  | _ => Err TypeError
  end.

(** Modelled from the spec: the assignment [d[k1]...[kn] = v] on a
    [NestedDict] (not among the sources), creating the levels that are
    missing in "a nested mapping ... built fresh per call". *)
Fixpoint NestedDict_set (path : list string) (v : pyval) (d : pyval)
  : result pyval :=
  match path with
  | [] => Ok v
  | k :: path' =>
      match d with
      | PDict entries =>
          child ← NestedDict_set path' v
                    (default (PDict []) (dict_get k entries));
          Ok (PDict (dict_set k child entries))
      | _ => Err TypeError
      end
  end.

(** Modelled from the spec: [NestedDict.to_dict] (not among the sources),
    the plain mapping behind the nested one. *)
Definition to_dict (d : pyval) : pyval := d.

(** Reading a nested mapping at a path. *)
Fixpoint lookup_path (path : list string) (d : pyval) : option pyval :=
  match path with
  | [] => Some d
  | k :: path' =>
      match d with
      | PDict entries => dict_get k entries ≫= lookup_path path'
      | _ => None
      end
  end.

(** ** Object masks *)

(** ['mask[%s]' % ','.join(fields)] *)
Definition mask_of (fields : list string) : string :=
  "mask[" +:+ String.concat "," fields +:+ "]".

Definition _get_subnet_mask : list string :=
  ["hardware"; "datacenter"; "ipAddressCount"; "virtualGuests"].

Definition _get_vlan_mask : string :=
  mask_of ["firewallInterfaces"; "hardware"; "networkComponents";
           "primaryRouter[id, fullyQualifiedDomainName, datacenter]";
           "subnets"; "totalPrimaryIpAddressCount"; "virtualGuests"].

(** ** Summary records *)

(** Keys of a locally built dict: the hashable values.  [True] and [1]
    (and [False] and [0]) are one key. *)
Inductive pykey : Type :=
  | KNone
  | KInt (n : Z)
  | KStr (s : string).

#[global] Instance pykey_eq_dec : EqDecision pykey.
Proof. solve_decision. Defined.

#[global] Instance pykey_countable : Countable pykey.
Proof.
  refine (inj_countable'
    (fun k => match k with
              | KNone => inl ()
              | KInt n => inr (inl n)
              | KStr s => inr (inr s)
              end)
    (fun x => match x with
              | inl _ => KNone
              | inr (inl n) => KInt n
              | inr (inr s) => KStr s
              end) _).
  by intros [].
Defined.

Definition hash_key (v : pyval) : result pykey :=
  match v with
  | PNone => Ok KNone
  | PBool b => Ok (KInt (if b then 1 else 0))
  | PInt n => Ok (KInt n)
  | PStr s => Ok (KStr s)
  | PList _ | PDict _ => Err TypeError
  end.

(** The right operand of [count += v] for an integer [count]. *)
Definition int_operand (v : pyval) : result Z :=
  match v with
  | PInt n => Ok n
  | PBool b => Ok (if b then 1 else 0)
  | _ => Err TypeError
  end.

Record counters : Type := Counters {
  hardwareCount : Z;
  networkingCount : Z;
  primaryIpCount : Z;
  subnetCount : Z;
  virtualGuestCount : Z;
  vlanCount : Z;
}.

Definition no_counts : counters := Counters 0 0 0 0 0 0.

(** Lines 199-219: the body of the loop for one VLAN. *)
Definition count_vlan (vlan : pyval) (datacenters : gmap pykey counters)
  : result (gmap pykey counters) :=
  router ← getitem vlan "primaryRouter";
  dc ← getitem router "datacenter";
  name ← getitem dc "name";
  key ← hash_key name;
  let c := default no_counts (datacenters !! key) in
  hardware ← getitem vlan "hardware" ≫= py_len;
  components ← getitem vlan "networkComponents" ≫= py_len;
  ips ← getitem vlan "totalPrimaryIpAddressCount" ≫= int_operand;
  subnets ← getitem vlan "subnets" ≫= py_len;
  guests ← getitem vlan "virtualGuests" ≫= py_len;
  Ok (<[key := {| hardwareCount := hardwareCount c + hardware;
                  networkingCount := networkingCount c + components;
                  primaryIpCount := primaryIpCount c + ips;
                  subnetCount := subnetCount c + subnets;
                  virtualGuestCount := virtualGuestCount c + guests;
                  vlanCount := vlanCount c + 1 |}]> datacenters).

Fixpoint count_vlans (vlans : list pyval) (datacenters : gmap pykey counters)
  : result (gmap pykey counters) :=
  match vlans with
  | [] => Ok datacenters
  | vlan :: rest => count_vlan vlan datacenters ≫= count_vlans rest
  end.

(** [[f(x) for x in xs]] *)
Fixpoint comprehension (f : pyval -> result pyval) (xs : list pyval)
  : result (list pyval) :=
  match xs with
  | [] => Ok []
  | x :: rest => y ← f x; ys ← comprehension f rest; Ok (y :: ys)
  end.

(** ** The manager's methods *)

Section NetworkManager.
(** [query_filter] and [resolve_ids] are imported from [SoftLayer.utils],
    which is not among the sources; the methods are written over them. *)
Variable query_filter : pyval -> pyval.
Variable resolve_ids : pyval -> list (pyval -> prog pyval) -> prog pyval.

(** [kwargs.get('filter') or {}] *)
Definition filter_or_empty (kwargs : list (string * pyval)) : pyval :=
  match dict_get "filter" kwargs with
  | Some f => if truthy f then f else PDict []
  | None => PDict []
  end.

(** [if value: _filter[path] = query_filter(value)] *)
Definition add_criterion (value : pyval) (path : list string)
    (_filter : pyval) : result pyval :=
  if truthy value then NestedDict_set path (query_filter value) _filter
  else Ok _filter.

Definition _get_vlans (kwargs : list (string * pyval)) : prog pyval :=
  if dict_has "mask" kwargs then Throw TypeError
  else invoke (Call "Account" "getNetworkVlans" []
                    (("mask", PStr _get_vlan_mask) :: kwargs)).

Definition list_vlans (datacenter vlan_number : pyval)
    (kwargs : list (string * pyval)) : prog pyval :=
  _filter ← lift (NestedDict_new (filter_or_empty kwargs));
  _filter ← lift (add_criterion vlan_number
                    ["networkVlans"; "vlanNumber"] _filter);
  _filter ← lift (add_criterion datacenter
                    ["networkVlans"; "primaryRouter"; "datacenter"; "name"]
                    _filter);
  let kwargs := dict_set "filter" (to_dict _filter) kwargs in
  _get_vlans kwargs.

Definition list_subnets (identifier datacenter version : pyval)
    (kwargs : list (string * pyval)) : prog pyval :=
  let kwargs :=
    if negb (dict_has "mask" kwargs)
    then dict_set "mask" (PStr (mask_of _get_subnet_mask)) kwargs
    else kwargs in
  _filter ← lift (NestedDict_new (filter_or_empty kwargs));
  _filter ← lift (add_criterion identifier
                    ["subnets"; "networkIdentifier"] _filter);
  _filter ← lift (add_criterion datacenter
                    ["subnets"; "datacenter"; "name"] _filter);
  _filter ← lift (add_criterion version ["subnets"; "version"] _filter);
  let kwargs := dict_set "filter" (to_dict _filter) kwargs in
  invoke (Call "Account" "getSubnets" [] kwargs).

Definition _get_subnet_by_identifier (identifier : pyval) : prog pyval :=
  results ← list_subnets identifier PNone (PInt 0) [("mask", PStr "id")];
  results ← lift (py_iter results);
  ids ← lift (comprehension (fun r => getitem r "id") results);
  Ret (PList ids).

Definition subnet_resolvers : list (pyval -> prog pyval) :=
  [_get_subnet_by_identifier].

Definition get_subnet (id : pyval) (kwargs : list (string * pyval))
  : prog pyval :=
  let kwargs :=
    if negb (dict_has "mask" kwargs)
    then dict_set "mask" (PStr (mask_of _get_subnet_mask)) kwargs
    else kwargs in
  ids ← resolve_ids id subnet_resolvers;
  id ← lift (getindex ids 0);
  invoke (Call "Network_Subnet" "getObject" [] (("id", id) :: kwargs)).

Definition cancel_subnet (id : pyval) : prog pyval :=
  subnet ← get_subnet id [("mask", PStr "mask[id, billingItem.id]")];
  billing_item ← lift (getitem subnet "billingItem");
  billing_id ← lift (getitem billing_item "id");
  invoke (Call "Billing_Item" "cancelService" [] [("id", billing_id)]).

Definition ip_lookup (ip : pyval) : prog pyval :=
  let mask := mask_of ["hardware"; "virtualGuest"] in
  invoke (Call "Network_Subnet_IpAddress" "getByIpAddress" [ip]
               [("mask", PStr mask)]).

Definition get_vlan (id : pyval) : prog pyval :=
  invoke (Call "Network_Vlan" "getObject" []
               [("id", id); ("mask", PStr _get_vlan_mask)]).

Definition summary_by_datacenter : prog (gmap pykey counters) :=
  vlans ← _get_vlans [];
  vlans ← lift (py_iter vlans);
  lift (count_vlans vlans ∅).
End NetworkManager.

(** Modelled from the spec: [resolve_ids] of [SoftLayer.utils], which is not
    among the sources.  The spec says that the identifier is "either a
    numeric ID or a network-identifier string" and is resolved "to a numeric
    id via the registered resolver if not already numeric".  A numeric
    identifier is an integer or a string of decimal digits; it resolves to
    itself without any call.  Any other identifier is handed to the
    registered resolvers in turn, and the first non-empty answer is the
    resolution. *)
Definition digit_value (c : Ascii.ascii) : option Z :=
  let n := Z.of_nat (Ascii.nat_of_ascii c) in
  if (48 <=? n) && (n <=? 57) then Some (n - 48) else None.

(** Modelled from the spec: the value of a string of decimal digits, for the
    "numeric ID" of the spec. *)
Fixpoint digits_value (s : string) (acc : Z) : option Z :=
  match s with
  | EmptyString => Some acc
  | String c s' => d ← digit_value c; digits_value s' (10 * acc + d)
  end.

(** Modelled from the spec: whether an identifier is "already numeric",
    and its number. *)
Definition numeric_id (identifier : pyval) : option Z :=
  match identifier with
  | PInt n => Some n
  | PStr (String c s) => digits_value (String c s) 0
  | _ => None
  end.

(** Modelled from the spec: resolution "via the registered resolver", for
    the list of resolvers the manager registers. *)
Fixpoint try_resolvers (resolvers : list (pyval -> prog pyval))
    (identifier : pyval) : prog pyval :=
  match resolvers with
  | [] => Ret (PList [])
  | resolver :: rest =>
      ids ← resolver identifier;
      if truthy ids then Ret ids else try_resolvers rest identifier
  end.

(** Modelled from the spec: [resolve_ids] itself (not among the sources):
    the identifier is resolved "to a numeric id via the registered resolver
    if not already numeric". *)
Definition spec_resolve_ids (identifier : pyval)
    (resolvers : list (pyval -> prog pyval)) : prog pyval :=
  match numeric_id identifier with
  | Some n => Ret (PList [PInt n])
  | None => try_resolvers resolvers identifier
  end.

(** The price search of [add_subnet] on a decoded catalog (lines 30-53). *)
Definition find_price (type : string) (quantity : option Z) (version : Z)
    (items : list pyval) : result pyval :=
  let '(category, quantity, desc) :=
    add_subnet_category type quantity version in
  scan_items category (py_str quantity) version desc items PNone.

(** The order call [add_subnet] ends with once a price is selected. *)
Definition order_call (type : string) (vlan_id price_id : pyval)
    (test_order : bool) : call :=
  Call "Product_Order" (if test_order then "verifyOrder" else "placeOrder")
       [PDict (dict_set "complexType" (PStr order_complex_type)
                 (add_subnet_order type vlan_id price_id))] [].

(** An item passes the scan when its test does not raise and, if it matches,
    its first price can be read. *)
Definition scans_ok (category quantity : string) (version : Z)
    (desc : option string) (item : pyval) : bool :=
  match item_matches category quantity version desc item with
  | Ok true => is_ok (first_price item)
  | Ok false => true
  | Err _ => false
  end.

(** The item carries the category code and the capacity asked for. *)
Definition category_capacity_match (category quantity : string)
    (item : pyval) : bool :=
  match py_get item "itemCategory" (PDict []) with
  | Ok item_category =>
      match py_get item_category "categoryCode" PNone with
      | Ok category_code =>
          py_eq_str category_code category
          && match getitem item "capacity" with
             | Ok capacity => py_eq_str capacity quantity
             | Err _ => false
             end
      | Err _ => false
      end
  | Err _ => false
  end.

(** A catalog item as the product service lists it. *)
Definition catalog_item (category capacity description : string)
    (price : Z) : pyval :=
  PDict [("itemCategory", PDict [("categoryCode", PStr category)]);
         ("capacity", PStr capacity);
         ("description", PStr description);
         ("prices", PList [PDict [("id", PInt price)]])].

(** The VLAN listing [summary_by_datacenter] asks for. *)
Definition vlans_call : call :=
  Call "Account" "getNetworkVlans" [] [("mask", PStr _get_vlan_mask)].

(** The key a VLAN is counted under:
    [vlan['primaryRouter']['datacenter']['name']]. *)
Definition vlan_key (vlan : pyval) : result pykey :=
  router ← getitem vlan "primaryRouter";
  dc ← getitem router "datacenter";
  name ← getitem dc "name";
  hash_key name.

(** [len(vlan['hardware'])] *)
Definition vlan_hardware (vlan : pyval) : result Z :=
  getitem vlan "hardware" ≫= py_len.

(** A VLAN record the loop body can count: every field it reads is there
    and has a size (or is a number). *)
Definition countable_vlan (vlan : pyval) : bool :=
  is_ok (count_vlan vlan ∅).

#[global] Instance exn_eq_dec : EqDecision exn.
Proof. solve_decision. Defined.

#[global] Instance result_eq_dec {A} `{EqDecision A} : EqDecision (result A).
Proof. solve_decision. Defined.

(** The VLANs of a listing that reside in one datacenter, how many they
    are, and the total size of their hardware lists. *)
Definition vlans_in (key : pykey) (vlans : list pyval) : list pyval :=
  filter (fun vlan => vlan_key vlan = Ok key) vlans.

Definition Z_sum (l : list Z) : Z := foldr Z.add 0 l.

Definition hardware_size (vlan : pyval) : Z :=
  match vlan_hardware vlan with
  | Ok n => n
  | Err _ => 0
  end.

Definition vlan_count_in (key : pykey) (vlans : list pyval) : Z :=
  Z.of_nat (length (vlans_in key vlans)).

Definition hardware_count_in (key : pykey) (vlans : list pyval) : Z :=
  Z_sum (hardware_size <$> vlans_in key vlans).

(** A VLAN record with every relation the summary counts. *)
Definition vlan_record (datacenter : string)
    (hardware components subnets guests : list pyval) (ips : Z) : pyval :=
  PDict [("primaryRouter",
          PDict [("datacenter", PDict [("name", PStr datacenter)])]);
         ("hardware", PList hardware);
         ("networkComponents", PList components);
         ("totalPrimaryIpAddressCount", PInt ips);
         ("subnets", PList subnets);
         ("virtualGuests", PList guests)].

(** Two paths overlap when one is a prefix of the other: an assignment at
    one of them changes what is read at the other. *)
Fixpoint overlap (p q : list string) : bool :=
  match p, q with
  | [], _ | _, [] => true
  | a :: p', b :: q' => String.eqb a b && overlap p' q'
  end.

(** The criteria of the two listings, each with the path it filters on. *)
Definition vlan_criteria (datacenter vlan_number : pyval)
  : list (pyval * list string) :=
  [(vlan_number, ["networkVlans"; "vlanNumber"]);
   (datacenter, ["networkVlans"; "primaryRouter"; "datacenter"; "name"])].

Definition subnet_criteria (identifier datacenter version : pyval)
  : list (pyval * list string) :=
  [(identifier, ["subnets"; "networkIdentifier"]);
   (datacenter, ["subnets"; "datacenter"; "name"]);
   (version, ["subnets"; "version"])].

(** What the filter sent owes to the criteria and to the caller's filter:
    every supplied criterion is found at its path; a path that overlaps no
    supplied criterion reads as in the caller's filter; so does the path of
    a criterion that was not supplied. *)
Definition merged (query_filter : pyval -> pyval)
    (criteria : list (pyval * list string)) (caller sent : pyval) : Prop :=
  (forall value path, (value, path) ∈ criteria -> truthy value = true ->
     lookup_path path sent = Some (query_filter value))
  /\ (forall path,
        (forall value p, (value, p) ∈ criteria -> truthy value = true ->
           overlap p path = false) ->
        lookup_path path sent = lookup_path path caller)
  /\ (forall value path, (value, path) ∈ criteria -> truthy value = false ->
        lookup_path path sent = lookup_path path caller).

(** The calls the two listings end with. *)
Definition list_vlans_call (kwargs : list (string * pyval)) (sent : pyval)
  : call :=
  Call "Account" "getNetworkVlans" []
       (("mask", PStr _get_vlan_mask) :: dict_set "filter" sent kwargs).

Definition with_subnet_mask (kwargs : list (string * pyval))
  : list (string * pyval) :=
  if negb (dict_has "mask" kwargs)
  then dict_set "mask" (PStr (mask_of _get_subnet_mask)) kwargs
  else kwargs.

Definition list_subnets_call (kwargs : list (string * pyval)) (sent : pyval)
  : call :=
  Call "Account" "getSubnets" []
       (dict_set "filter" sent (with_subnet_mask kwargs)).

(** The lookup that resolves a network identifier, and the fetch of a subnet
    by id. *)
Definition lookup_call (query_filter : pyval -> pyval) (identifier : pyval)
  : call :=
  Call "Account" "getSubnets" []
       [("mask", PStr "id");
        ("filter",
         if truthy identifier
         then PDict [("subnets",
                      PDict [("networkIdentifier", query_filter identifier)])]
         else PDict [])].

Definition fetch_call (id : pyval) (kwargs : list (string * pyval)) : call :=
  Call "Network_Subnet" "getObject" [] (("id", id) :: with_subnet_mask kwargs).

Definition cancel_call (billing_id : pyval) : call :=
  Call "Billing_Item" "cancelService" [] [("id", billing_id)].

(** The criteria applied one after the other, as the listings do. *)
Fixpoint add_criteria (query_filter : pyval -> pyval)
    (criteria : list (pyval * list string)) (_filter : pyval)
  : result pyval :=
  match criteria with
  | [] => Ok _filter
  | (value, path) :: rest =>
      add_criterion query_filter value path _filter
        ≫= add_criteria query_filter rest
  end.

(** No two criteria filter on overlapping paths. *)
Fixpoint separate (criteria : list (pyval * list string)) : bool :=
  match criteria with
  | [] => true
  | (_, p) :: rest =>
      forallb (fun c => negb (overlap p c.2)) rest && separate rest
  end.

(** An item that is a mapping and does not carry the category code asked
    for: it has no itemCategory, or its itemCategory is a mapping whose
    categoryCode is missing or is another value. *)
Definition other_category (category : string) (item : pyval) : bool :=
  match item with
  | PDict entries =>
      match dict_get "itemCategory" entries with
      | None => true
      | Some (PDict item_category) =>
          negb (py_eq_str (default PNone (dict_get "categoryCode" item_category))
                  category)
      | Some _ => false
      end
  | _ => false
  end.

(** Field-wise sum of two summary records. *)
Definition add_counts (c inc : counters) : counters :=
  {| hardwareCount := hardwareCount c + hardwareCount inc;
     networkingCount := networkingCount c + networkingCount inc;
     primaryIpCount := primaryIpCount c + primaryIpCount inc;
     subnetCount := subnetCount c + subnetCount inc;
     virtualGuestCount := virtualGuestCount c + virtualGuestCount inc;
     vlanCount := vlanCount c + vlanCount inc |}.

(** What the loop body reads off one VLAN, in the order it reads it: the
    datacenter key and the amounts added to the six counters. *)
Definition vlan_reading (vlan : pyval) : result (pykey * counters) :=
  router ← getitem vlan "primaryRouter";
  dc ← getitem router "datacenter";
  name ← getitem dc "name";
  key ← hash_key name;
  hardware ← getitem vlan "hardware" ≫= py_len;
  components ← getitem vlan "networkComponents" ≫= py_len;
  ips ← getitem vlan "totalPrimaryIpAddressCount" ≫= int_operand;
  subnets ← getitem vlan "subnets" ≫= py_len;
  guests ← getitem vlan "virtualGuests" ≫= py_len;
  Ok (key, Counters hardware components ips subnets guests 1).

(** [len(vlan[field])], and [vlan['totalPrimaryIpAddressCount']]. *)
Definition vlan_size (field : string) (vlan : pyval) : Z :=
  match getitem vlan field ≫= py_len with
  | Ok n => n
  | Err _ => 0
  end.

Definition vlan_ips (vlan : pyval) : Z :=
  match getitem vlan "totalPrimaryIpAddressCount" ≫= int_operand with
  | Ok n => n
  | Err _ => 0
  end.

(** The six totals over the VLANs of a listing that reside in one
    datacenter. *)
Definition datacenter_totals (key : pykey) (vlans : list pyval) : counters :=
  {| hardwareCount := Z_sum (vlan_size "hardware" <$> vlans_in key vlans);
     networkingCount :=
       Z_sum (vlan_size "networkComponents" <$> vlans_in key vlans);
     primaryIpCount := Z_sum (vlan_ips <$> vlans_in key vlans);
     subnetCount := Z_sum (vlan_size "subnets" <$> vlans_in key vlans);
     virtualGuestCount :=
       Z_sum (vlan_size "virtualGuests" <$> vlans_in key vlans);
     vlanCount := Z.of_nat (length (vlans_in key vlans)) |}.

(** The VLANs a summary accounts for: the sum of its vlanCount entries. *)
Definition counted_vlans (m : gmap pykey counters) : Z :=
  Z_sum ((fun kc => vlanCount kc.2) <$> map_to_list m).

(** * Properties *)

(** ** Running programs *)

Section ExecFacts.
Context {S : Type} (handle : S -> call -> result pyval * S).

Lemma exec_bind {A B} (p : prog A) (f : A -> prog B) (s : S) :
  exec handle (p ≫= f) s =
    match exec handle p s with
    | (t, Ok a, s') =>
        let '(t', o, s'') := exec handle (f a) s' in (t ++ t', o, s'')
    | (t, Err e, s') => (t, Err e, s')
    end.
Proof.
  revert s. induction p as [a|e|c k IH]; intros s; simpl.
  - change (Ret a ≫= f) with (f a). by destruct (exec handle (f a) s) as [[??]?].
  - done.
  - change (Invoke c k ≫= f) with (Invoke c (fun r => k r ≫= f)). simpl.
    destruct (handle s c) as [[r|e] s']; [|done].
    rewrite IH. destruct (exec handle (k r) s') as [[t [a|e]] s'']; [|done].
    by destruct (exec handle (f a) s'') as [[??]?].
Qed.

Lemma exec_invoke (c : call) (s : S) :
  exec handle (invoke c) s = ([c], (handle s c).1, (handle s c).2).
Proof. simpl. by destruct (handle s c) as [[r|e] s']. Qed.

Lemma exec_lift {A} (r : result A) (s : S) :
  exec handle (lift r) s = ([], r, s).
Proof. by destruct r. Qed.
End ExecFacts.

(** ** add_subnet *)

Lemma add_subnet_run {S} (handle : S -> call -> result pyval * S) s s1
    type quantity vlan_id version test_order response :
  handle s catalog_call = (Ok response, s1) ->
  exec handle (add_subnet type quantity vlan_id version test_order) s =
    match py_iter response ≫= find_price type quantity version with
    | Ok price_id =>
        if truthy price_id then
          let c := order_call type vlan_id price_id test_order in
          ([catalog_call; c], (handle s1 c).1, (handle s1 c).2)
        else ([catalog_call], Ok PNone, s1)
    | Err e => ([catalog_call], Err e, s1)
    end.
Proof.
  intros Hcat. unfold add_subnet, find_price.
  destruct (add_subnet_category type quantity version) as [[category q] desc].
  cbn [mbind prog_mbind prog_bind invoke exec]. rewrite Hcat.
  destruct (py_iter response) as [items|e]; [|done]. cbn.
  destruct (scan_items _ _ _ _ _ _) as [price_id|e]; [|done]. cbn.
  destruct (truthy price_id); cbn; [|done].
  unfold order_call.
  by destruct (handle s1 _) as [[r|e] s2].
Qed.

Section Scan.
Variables (category quantity : string) (version : Z) (desc : option string).

Lemma scan_items_app pre post price_id :
  scan_items category quantity version desc (pre ++ post) price_id =
    scan_items category quantity version desc pre price_id
      ≫= scan_items category quantity version desc post.
Proof.
  revert price_id. induction pre as [|item pre IH]; intros price_id; [done|].
  cbn [app scan_items].
  destruct (item_matches _ _ _ _ item) as [[]|e]; cbn; [|by apply IH|done].
  destruct (first_price item) as [p|e]; cbn; [by apply IH|done].
Qed.

(** Items that do not match leave [price_id] as it was. *)
Lemma scan_items_no_match items price_id :
  Forall (fun item =>
    item_matches category quantity version desc item = Ok false) items ->
  scan_items category quantity version desc items price_id = Ok price_id.
Proof.
  induction 1 as [|item items Hitem _ IH]; [done|].
  cbn [scan_items]. by rewrite Hitem.
Qed.

(** Items that pass the scan never make it raise. *)
Lemma scan_items_ok items price_id :
  Forall (fun item =>
    scans_ok category quantity version desc item = true) items ->
  is_ok (scan_items category quantity version desc items price_id) = true.
Proof.
  revert price_id.
  induction items as [|item items IH]; intros price_id Hok; [done|].
  apply Forall_cons in Hok as [Hitem Hok]. unfold scans_ok in Hitem.
  cbn [scan_items].
  destruct (item_matches _ _ _ _ item) as [[]|e]; cbn; [|by apply IH|done].
  destruct (first_price item) as [p|e]; cbn; [by apply IH|done].
Qed.

(** The scan keeps the price of the last item that matches. *)
Lemma scan_items_last_match pre item post price_id price :
  Forall (fun i => scans_ok category quantity version desc i = true) pre ->
  item_matches category quantity version desc item = Ok true ->
  first_price item = Ok price ->
  Forall (fun i =>
    item_matches category quantity version desc i = Ok false) post ->
  scan_items category quantity version desc (pre ++ item :: post) price_id
    = Ok price.
Proof.
  intros Hpre Hitem Hprice Hpost. rewrite scan_items_app.
  pose proof (scan_items_ok pre price_id Hpre) as Hok.
  destruct (scan_items _ _ _ _ pre price_id) as [p|e]; [|done].
  cbn. rewrite Hitem. cbn. rewrite Hprice. cbn.
  by apply scan_items_no_match.
Qed.
End Scan.

(** C1, counterexample.  Two catalog items match a request for four public
    IPv4 addresses; the first lists price 1 and the second price 2.  The
    order that is placed carries price 2, the price of the second item. *)
Lemma add_subnet_takes_second_of_two_matches :
  item_matches "sov_sec_ip_addresses_pub" "4" 4 None
    (catalog_item "sov_sec_ip_addresses_pub" "4" "first" 1) = Ok true
  /\ item_matches "sov_sec_ip_addresses_pub" "4" 4 None
       (catalog_item "sov_sec_ip_addresses_pub" "4" "second" 2) = Ok true
  /\ first_price (catalog_item "sov_sec_ip_addresses_pub" "4" "first" 1)
       = Ok (PInt 1)
  /\ exec scripted (add_subnet "public" (Some 4) (PInt 9) 4 false)
       [Ok (PList [catalog_item "sov_sec_ip_addresses_pub" "4" "first" 1;
                   catalog_item "sov_sec_ip_addresses_pub" "4" "second" 2]);
        Ok (PStr "receipt")]
     = ([catalog_call; order_call "public" (PInt 9) (PInt 2) false],
        Ok (PStr "receipt"), [])
  /\ PInt 2 <> PInt 1.
Proof. repeat split; [vm_compute; reflexivity..|discriminate]. Qed.

(** C1, amended.  When the items before the last matching one pass the scan
    (none raises), [add_subnet] selects the price identifier of the LAST item
    that matches category code, capacity and, for version 6, description:
    every match overwrites the price kept so far.  That identifier is the
    [id] of the first element of the item's [prices] list, and it is the one
    price of the order that is submitted. *)
Theorem add_subnet_selects_last_match {S}
    (handle : S -> call -> result pyval * S) (s s1 : S)
    (type : string) (quantity : option Z) (vlan_id : pyval) (version : Z)
    (test_order : bool) (category : string) (q : option Z)
    (desc : option string) (response : pyval) (pre post : list pyval)
    (item price_id : pyval) :
  add_subnet_category type quantity version = (category, q, desc) ->
  handle s catalog_call = (Ok response, s1) ->
  py_iter response = Ok (pre ++ item :: post) ->
  Forall (fun i => scans_ok category (py_str q) version desc i = true) pre ->
  item_matches category (py_str q) version desc item = Ok true ->
  first_price item = Ok price_id ->
  Forall (fun i =>
    item_matches category (py_str q) version desc i = Ok false) post ->
  find_price type quantity version (pre ++ item :: post) = Ok price_id
  /\ (truthy price_id = true ->
      trace handle (add_subnet type quantity vlan_id version test_order) s
        = [catalog_call; order_call type vlan_id price_id test_order]
      /\ dict_get "prices" (add_subnet_order type vlan_id price_id)
           = Some (PList [PDict [("id", price_id)]])).
Proof.
  intros Hcat Hcall Hiter Hpre Hitem Hprice Hpost.
  assert (find_price type quantity version (pre ++ item :: post)
            = Ok price_id) as Hfind.
  { unfold find_price. rewrite Hcat. by apply scan_items_last_match. }
  split; [done|]. intros Htrue. split.
  - unfold trace. rewrite (add_subnet_run handle s s1 _ _ _ _ _ _ Hcall).
    rewrite Hiter. cbn. rewrite Hfind, Htrue. done.
  - unfold add_subnet_order. by destruct (negb _).
Qed.

Lemma add_subnet_selects_last_match_witness :
  find_price "public" (Some 4) 4
    ([catalog_item "sov_sec_ip_addresses_pub" "4" "first" 1]
     ++ catalog_item "sov_sec_ip_addresses_pub" "4" "second" 2
     :: [catalog_item "global_ipv4" "0" "other" 3]) = Ok (PInt 2)
  /\ (truthy (PInt 2) = true ->
      trace scripted (add_subnet "public" (Some 4) (PInt 9) 4 false)
        [Ok (PList [catalog_item "sov_sec_ip_addresses_pub" "4" "first" 1;
                    catalog_item "sov_sec_ip_addresses_pub" "4" "second" 2;
                    catalog_item "global_ipv4" "0" "other" 3]);
         Ok (PStr "receipt")]
        = [catalog_call; order_call "public" (PInt 9) (PInt 2) false]
      /\ dict_get "prices" (add_subnet_order "public" (PInt 9) (PInt 2))
           = Some (PList [PDict [("id", PInt 2)]])).
Proof.
  apply (add_subnet_selects_last_match scripted _ [Ok (PStr "receipt")]
           "public" (Some 4) (PInt 9) 4 false
           "sov_sec_ip_addresses_pub" (Some 4) None
           (PList [catalog_item "sov_sec_ip_addresses_pub" "4" "first" 1;
                   catalog_item "sov_sec_ip_addresses_pub" "4" "second" 2;
                   catalog_item "global_ipv4" "0" "other" 3])).
  - reflexivity.
  - reflexivity.
  - reflexivity.
  - repeat constructor.
  - vm_compute; reflexivity.
  - reflexivity.
  - repeat constructor.
Defined.

(** X1.  The table of lines 30-44, row by row.  For a version other than 4 and a
    type that is neither global nor public no value is assigned to [desc]:
    the local stays unbound. *)
Lemma add_subnet_category_table (type : string) (quantity : option Z)
    (version : Z) :
  (version = 4 -> type = "global" ->
     add_subnet_category type quantity version
       = ("global_ipv4", Some 0, None))
  /\ (version = 4 -> type = "public" ->
     add_subnet_category type quantity version
       = ("sov_sec_ip_addresses_pub", quantity, None))
  /\ (version = 4 -> type <> "global" -> type <> "public" ->
     add_subnet_category type quantity version
       = ("sov_sec_ip_addresses_priv", quantity, None))
  /\ (version <> 4 -> type = "global" ->
     add_subnet_category type quantity version
       = ("global_ipv6", Some 0, Some "Global"))
  /\ (version <> 4 -> type = "public" ->
     add_subnet_category type quantity version
       = ("static_ipv6_addresses", quantity, Some "Portable"))
  /\ (version <> 4 -> type <> "global" -> type <> "public" ->
     add_subnet_category type quantity version
       = ("static_ipv6_addresses", quantity, None)).
Proof.
  unfold add_subnet_category.
  repeat split; intros Hv; intros;
    repeat match goal with
           | H : ?x = _ |- _ => subst x
           | H : _ <> _ |- _ => first [apply Z.eqb_neq in H
                                      | apply String.eqb_neq in H]; rewrite H
           end; done.
Qed.

Lemma add_subnet_category_table_witness :
  add_subnet_category "public" (Some 8) 6
    = ("static_ipv6_addresses", Some 8, Some "Portable").
Proof.
  apply (add_subnet_category_table "public" (Some 8) 6); [lia|reflexivity].
Defined.

(** C2, the failing run.  Version 6 with type "private": the catalog holds
    one item of category static_ipv6_addresses and capacity "64".  The table
    asks for no description match, so the item should be selected and its
    price 7 ordered; the run raises on reading the unbound [desc] and no
    order is submitted. *)
Theorem add_subnet_ipv6_private_raises :
  category_capacity_match "static_ipv6_addresses" "64"
    (catalog_item "static_ipv6_addresses" "64" "/64 Block" 7) = true
  /\ exec scripted (add_subnet "private" (Some 64) (PInt 9) 6 false)
       [Ok (PList [catalog_item "static_ipv6_addresses" "64" "/64 Block" 7]);
        Ok (PStr "receipt")]
     = ([catalog_call], Err (UnboundLocalError "desc"),
        [Ok (PStr "receipt")]).
Proof. split; vm_compute; reflexivity. Qed.

(** With [desc] unbound, an item that carries the category and the capacity
    makes the version-6 test raise, and no item passes that test. *)
Lemma item_matches_unbound_desc category quantity item :
  category_capacity_match category quantity item = true ->
  item_matches category quantity 6 None item = Err (UnboundLocalError "desc").
Proof.
  unfold category_capacity_match, item_matches.
  destruct (py_get item _ _) as [item_category|]; [|done]. cbn.
  destruct (py_get item_category _ _) as [category_code|]; [|done]. cbn.
  destruct (py_eq_str category_code category); [|done]. cbn.
  destruct (getitem item "capacity") as [capacity|]; [|done]. cbn.
  by intros ->.
Qed.

Lemma scan_items_unbound_desc category quantity pre item post price_id :
  category_capacity_match category quantity item = true ->
  (exists e, scan_items category quantity 6 None (pre ++ item :: post)
               price_id = Err e)
  /\ (Forall (fun i =>
        is_ok (item_matches category quantity 6 None i) = true) pre ->
      scan_items category quantity 6 None (pre ++ item :: post) price_id
        = Err (UnboundLocalError "desc")).
Proof.
  intros Hitem%item_matches_unbound_desc. revert price_id.
  induction pre as [|i pre IH]; intros price_id; cbn [app scan_items].
  - rewrite Hitem. cbn. eauto.
  - destruct (item_matches category quantity 6 None i) as [[]|e] eqn:Hi; cbn.
    + exfalso. revert Hi. unfold item_matches.
      destruct (py_get i _ _) as [item_category|]; [|done]. cbn.
      destruct (py_get item_category _ _) as [category_code|]; [|done]. cbn.
      destruct (py_eq_str category_code category); [|done]. cbn.
      destruct (getitem i "capacity") as [capacity|]; [|done]. cbn.
      by destruct (py_eq_str capacity quantity).
    + destruct (IH price_id) as [He Hpre]. split; [done|].
      intros Hok. apply Forall_cons in Hok as [_ Hok]. by apply Hpre.
    + split; [eauto|]. intros Hok. apply Forall_cons in Hok as [Hok _].
      by rewrite Hi in Hok.
Qed.

(** C3.  Version 6 with a type that is neither global nor public leaves
    [desc] unbound.  As soon as the catalog holds an item of category
    static_ipv6_addresses whose capacity is the stringified quantity, the
    item test reads the unbound variable: the test of that item raises, the
    call to [add_subnet] ends in an exception after the catalog query and
    never yields a result; the exception is the unbound-variable error
    whenever the items before it were tested without raising. *)
Theorem add_subnet_ipv6_reads_unbound_desc {S}
    (handle : S -> call -> result pyval * S) (s s1 : S)
    (type : string) (quantity : option Z) (vlan_id : pyval)
    (test_order : bool) (response : pyval) (pre post : list pyval)
    (item : pyval) :
  type <> "global" -> type <> "public" ->
  handle s catalog_call = (Ok response, s1) ->
  py_iter response = Ok (pre ++ item :: post) ->
  category_capacity_match "static_ipv6_addresses" (py_str quantity) item
    = true ->
  add_subnet_category type quantity 6
    = ("static_ipv6_addresses", quantity, None)
  /\ item_matches "static_ipv6_addresses" (py_str quantity) 6 None item
       = Err (UnboundLocalError "desc")
  /\ (exists e,
        exec handle (add_subnet type quantity vlan_id 6 test_order) s
          = ([catalog_call], Err e, s1))
  /\ (Forall (fun i =>
        is_ok (item_matches "static_ipv6_addresses" (py_str quantity) 6
                 None i) = true) pre ->
      exec handle (add_subnet type quantity vlan_id 6 test_order) s
        = ([catalog_call], Err (UnboundLocalError "desc"), s1)).
Proof.
  intros Hglobal Hpublic Hcall Hiter Hitem.
  assert (add_subnet_category type quantity 6
            = ("static_ipv6_addresses", quantity, None)) as Hcat.
  { unfold add_subnet_category. cbn.
    apply String.eqb_neq in Hglobal, Hpublic. by rewrite Hglobal, Hpublic. }
  destruct (scan_items_unbound_desc _ _ pre item post PNone Hitem)
    as [[e He] Hpre].
  split; [done|]. split; [by apply item_matches_unbound_desc|].
  rewrite (add_subnet_run handle s s1 _ _ _ _ _ _ Hcall), Hiter.
  cbn. unfold find_price. rewrite Hcat. split.
  - exists e. by rewrite He.
  - intros Hok. by rewrite (Hpre Hok).
Qed.

Lemma add_subnet_ipv6_reads_unbound_desc_witness :
  add_subnet_category "private" (Some 64) 6
    = ("static_ipv6_addresses", Some 64, None)
  /\ item_matches "static_ipv6_addresses" (py_str (Some 64)) 6 None
       (catalog_item "static_ipv6_addresses" "64" "/64 Block" 7)
       = Err (UnboundLocalError "desc")
  /\ (exists e,
        exec scripted (add_subnet "private" (Some 64) (PInt 9) 6 true)
          [Ok (PList [catalog_item "global_ipv6" "0" "Global" 3;
                      catalog_item "static_ipv6_addresses" "64" "/64 Block" 7]);
           Ok (PStr "receipt")]
          = ([catalog_call], Err e, [Ok (PStr "receipt")]))
  /\ (Forall (fun i =>
        is_ok (item_matches "static_ipv6_addresses" (py_str (Some 64)) 6
                 None i) = true)
        [catalog_item "global_ipv6" "0" "Global" 3] ->
      exec scripted (add_subnet "private" (Some 64) (PInt 9) 6 true)
        [Ok (PList [catalog_item "global_ipv6" "0" "Global" 3;
                    catalog_item "static_ipv6_addresses" "64" "/64 Block" 7]);
         Ok (PStr "receipt")]
        = ([catalog_call], Err (UnboundLocalError "desc"),
           [Ok (PStr "receipt")])).
Proof.
  apply (add_subnet_ipv6_reads_unbound_desc scripted _ [Ok (PStr "receipt")]
           "private" (Some 64) (PInt 9) true
           (PList [catalog_item "global_ipv6" "0" "Global" 3;
                   catalog_item "static_ipv6_addresses" "64" "/64 Block" 7])
           [catalog_item "global_ipv6" "0" "Global" 3] []).
  - discriminate.
  - discriminate.
  - reflexivity.
  - reflexivity.
  - vm_compute; reflexivity.
Defined.

(** C4.  When the scan ends with a price identifier the method accepts (a
    value that is not falsy), exactly one order call follows the catalog
    query: verifyOrder when [test_order] is set, placeOrder otherwise.  Its
    payload has packageId 0, the selected price as its one price entry,
    quantity 1 and the subnet complex type, and it has the key
    endPointVlanId, holding [vlan_id], exactly when the type is not
    "global".  The method returns or raises what that call does. *)
Theorem add_subnet_order_payload {S}
    (handle : S -> call -> result pyval * S) (s s1 : S)
    (type : string) (quantity : option Z) (vlan_id : pyval) (version : Z)
    (test_order : bool) (response : pyval) (items : list pyval)
    (price_id : pyval) :
  handle s catalog_call = (Ok response, s1) ->
  py_iter response = Ok items ->
  find_price type quantity version items = Ok price_id ->
  truthy price_id = true ->
  exists order,
    let c := Call "Product_Order"
               (if test_order then "verifyOrder" else "placeOrder")
               [PDict order] [] in
    exec handle (add_subnet type quantity vlan_id version test_order) s
      = ([catalog_call; c], (handle s1 c).1, (handle s1 c).2)
    /\ dict_get "packageId" order = Some (PInt 0)
    /\ dict_get "prices" order = Some (PList [PDict [("id", price_id)]])
    /\ dict_get "quantity" order = Some (PInt 1)
    /\ dict_get "complexType" order
         = Some (PStr "SoftLayer_Container_Product_Order_Network_Subnet")
    /\ (is_Some (dict_get "endPointVlanId" order) <-> type <> "global")
    /\ (type <> "global" -> dict_get "endPointVlanId" order = Some vlan_id)
    /\ map fst order
         = ["packageId"; "prices"; "quantity"]
           ++ (if String.eqb type "global" then [] else ["endPointVlanId"])
           ++ ["complexType"].
Proof.
  intros Hcall Hiter Hfind Htrue.
  exists (dict_set "complexType" (PStr order_complex_type)
            (add_subnet_order type vlan_id price_id)).
  split.
  { rewrite (add_subnet_run handle s s1 _ _ _ _ _ _ Hcall), Hiter.
    cbn. by rewrite Hfind, Htrue. }
  unfold add_subnet_order.
  destruct (String.eqb type "global") eqn:Htype; cbn.
  - apply String.eqb_eq in Htype as ->.
    split_and!; first [done | split; [by intros [? [=]]|done]].
  - apply String.eqb_neq in Htype.
    split_and!; first [done | split; [done|by eexists]].
Qed.

Lemma add_subnet_order_payload_witness :
  exists order,
    let c := Call "Product_Order" "verifyOrder" [PDict order] [] in
    exec scripted (add_subnet "global" None (PInt 9) 6 true)
      [Ok (PList [catalog_item "global_ipv6" "0" "Global IPv6" 11]);
       Ok (PStr "verified")]
      = ([catalog_call; c],
         (scripted [Ok (PStr "verified")] c).1,
         (scripted [Ok (PStr "verified")] c).2)
    /\ dict_get "packageId" order = Some (PInt 0)
    /\ dict_get "prices" order = Some (PList [PDict [("id", PInt 11)]])
    /\ dict_get "quantity" order = Some (PInt 1)
    /\ dict_get "complexType" order
         = Some (PStr "SoftLayer_Container_Product_Order_Network_Subnet")
    /\ (is_Some (dict_get "endPointVlanId" order) <-> "global" <> "global")
    /\ ("global" <> "global" ->
        dict_get "endPointVlanId" order = Some (PInt 9))
    /\ map fst order
         = ["packageId"; "prices"; "quantity"]
           ++ (if String.eqb "global" "global" then []
               else ["endPointVlanId"])
           ++ ["complexType"].
Proof.
  apply (add_subnet_order_payload scripted _ [Ok (PStr "verified")]
           "global" None (PInt 9) 6 true
           (PList [catalog_item "global_ipv6" "0" "Global IPv6" 11])
           [catalog_item "global_ipv6" "0" "Global IPv6" 11] (PInt 11)).
  - reflexivity.
  - reflexivity.
  - vm_compute; reflexivity.
  - reflexivity.
Defined.

(** C5, counterexample.  The one item of the catalog has the category asked
    for but no capacity, so it matches nothing; the method raises the
    missing-key error of [item['capacity']] instead of returning None. *)
Lemma add_subnet_raises_without_capacity :
  category_capacity_match "sov_sec_ip_addresses_pub" "4"
    (PDict [("itemCategory",
             PDict [("categoryCode", PStr "sov_sec_ip_addresses_pub")]);
            ("description", PStr "4 Public IP Addresses");
            ("prices", PList [PDict [("id", PInt 1)]])]) = false
  /\ exec scripted (add_subnet "public" (Some 4) (PInt 9) 4 false)
       [Ok (PList [PDict [("itemCategory",
                           PDict [("categoryCode",
                                   PStr "sov_sec_ip_addresses_pub")]);
                          ("description", PStr "4 Public IP Addresses");
                          ("prices", PList [PDict [("id", PInt 1)]])]]);
        Ok (PStr "receipt")]
     = ([catalog_call], Err (KeyError "capacity"), [Ok (PStr "receipt")]).
Proof. split; vm_compute; reflexivity. Qed.

(** C5, amended.  When every item of the catalog response is tested without
    an exception and none of them matches (category code, capacity equal to
    the stringified quantity and, for version 6, the description
    substring), [add_subnet] returns None, raises nothing, and the catalog
    query is the only remote call. *)
Theorem add_subnet_returns_none_without_match {S}
    (handle : S -> call -> result pyval * S) (s s1 : S)
    (type : string) (quantity : option Z) (vlan_id : pyval) (version : Z)
    (test_order : bool) (category : string) (q : option Z)
    (desc : option string) (response : pyval) (items : list pyval) :
  add_subnet_category type quantity version = (category, q, desc) ->
  handle s catalog_call = (Ok response, s1) ->
  py_iter response = Ok items ->
  Forall (fun item =>
    item_matches category (py_str q) version desc item = Ok false) items ->
  exec handle (add_subnet type quantity vlan_id version test_order) s
    = ([catalog_call], Ok PNone, s1).
Proof.
  intros Hcat Hcall Hiter Hitems.
  rewrite (add_subnet_run handle s s1 _ _ _ _ _ _ Hcall), Hiter.
  cbn. unfold find_price. rewrite Hcat.
  by rewrite scan_items_no_match.
Qed.

Lemma add_subnet_returns_none_without_match_witness :
  exec scripted (add_subnet "public" (Some 4) (PInt 9) 4 false)
    [Ok (PList [catalog_item "sov_sec_ip_addresses_pub" "8" "eight" 1;
                catalog_item "global_ipv4" "0" "global" 2;
                PDict []]);
     Ok (PStr "receipt")]
    = ([catalog_call], Ok PNone, [Ok (PStr "receipt")]).
Proof.
  apply (add_subnet_returns_none_without_match scripted _ _
           "public" (Some 4) (PInt 9) 4 false
           "sov_sec_ip_addresses_pub" (Some 4) None
           (PList [catalog_item "sov_sec_ip_addresses_pub" "8" "eight" 1;
                   catalog_item "global_ipv4" "0" "global" 2;
                   PDict []])
           [catalog_item "sov_sec_ip_addresses_pub" "8" "eight" 1;
            catalog_item "global_ipv4" "0" "global" 2;
            PDict []]).
  - reflexivity.
  - reflexivity.
  - reflexivity.
  - repeat constructor.
Defined.

(** C6.  When the scan finds no price (it ends with the initial None, or
    with any identifier the method treats as absent), the method returns
    None right after the catalog query: that query is the only call of the
    run, and no operation of the Product_Order service, placeOrder or
    verifyOrder, is invoked. *)
Theorem add_subnet_none_places_no_order {S}
    (handle : S -> call -> result pyval * S) (s s1 : S)
    (type : string) (quantity : option Z) (vlan_id : pyval) (version : Z)
    (test_order : bool) (response : pyval) (items : list pyval)
    (price_id : pyval) :
  handle s catalog_call = (Ok response, s1) ->
  py_iter response = Ok items ->
  find_price type quantity version items = Ok price_id ->
  truthy price_id = false ->
  outcome handle (add_subnet type quantity vlan_id version test_order) s
    = Ok PNone
  /\ trace handle (add_subnet type quantity vlan_id version test_order) s
       = [catalog_call]
  /\ Forall (fun c => service c <> "Product_Order")
       (trace handle (add_subnet type quantity vlan_id version test_order) s).
Proof.
  intros Hcall Hiter Hfind Hfalse. unfold outcome, trace.
  rewrite (add_subnet_run handle s s1 _ _ _ _ _ _ Hcall), Hiter.
  cbn. rewrite Hfind, Hfalse. cbn.
  repeat split. by repeat constructor.
Qed.

Lemma add_subnet_none_places_no_order_witness :
  outcome scripted (add_subnet "global" None PNone 4 false)
    [Ok (PList [catalog_item "global_ipv6" "0" "Global IPv6" 11]);
     Ok (PStr "receipt")] = Ok PNone
  /\ trace scripted (add_subnet "global" None PNone 4 false)
       [Ok (PList [catalog_item "global_ipv6" "0" "Global IPv6" 11]);
        Ok (PStr "receipt")] = [catalog_call]
  /\ Forall (fun c => service c <> "Product_Order")
       (trace scripted (add_subnet "global" None PNone 4 false)
          [Ok (PList [catalog_item "global_ipv6" "0" "Global IPv6" 11]);
           Ok (PStr "receipt")]).
Proof.
  apply (add_subnet_none_places_no_order scripted _ [Ok (PStr "receipt")]
           "global" None PNone 4 false
           (PList [catalog_item "global_ipv6" "0" "Global IPv6" 11])
           [catalog_item "global_ipv6" "0" "Global IPv6" 11] PNone).
  - reflexivity.
  - reflexivity.
  - reflexivity.
  - reflexivity.
Defined.

(** ** summary_by_datacenter *)

Lemma summary_by_datacenter_run {S}
    (handle : S -> call -> result pyval * S) s s1 response :
  handle s vlans_call = (Ok response, s1) ->
  exec handle summary_by_datacenter s =
    ([vlans_call], py_iter response ≫= (fun vlans => count_vlans vlans ∅), s1).
Proof.
  intros Hcall. unfold summary_by_datacenter, _get_vlans. cbn.
  fold vlans_call. rewrite Hcall.
  destruct (py_iter response) as [vlans|e]; [|done]. cbn.
  by destruct (count_vlans vlans ∅).
Qed.

(** One step of the loop: the VLAN's datacenter gets one more VLAN and the
    size of its hardware list; no other entry changes. *)
Lemma count_vlan_inv vlan m m' :
  count_vlan vlan m = Ok m' ->
  exists key hardware c,
    vlan_key vlan = Ok key /\ vlan_hardware vlan = Ok hardware
    /\ m' = <[key := c]> m
    /\ vlanCount c = vlanCount (default no_counts (m !! key)) + 1
    /\ hardwareCount c
         = hardwareCount (default no_counts (m !! key)) + hardware.
Proof.
  unfold count_vlan, vlan_key, vlan_hardware.
  destruct (getitem vlan "primaryRouter") as [router|]; [|done]. cbn.
  destruct (getitem router "datacenter") as [dc|]; [|done]. cbn.
  destruct (getitem dc "name") as [name|]; [|done]. cbn.
  destruct (hash_key name) as [key|]; [|done]. cbn.
  destruct (getitem vlan "hardware" ≫= py_len) as [hardware|]; [|done]. cbn.
  destruct (getitem vlan "networkComponents" ≫= py_len); [|done]. cbn.
  destruct (getitem vlan "totalPrimaryIpAddressCount" ≫= int_operand);
    [|done]. cbn.
  destruct (getitem vlan "subnets" ≫= py_len); [|done]. cbn.
  destruct (getitem vlan "virtualGuests" ≫= py_len); [|done]. cbn.
  intros [= <-]. by eexists _, _, _.
Qed.

(** Whether a VLAN can be counted does not depend on the counts so far. *)
Lemma count_vlan_ok vlan m :
  countable_vlan vlan = true -> is_ok (count_vlan vlan m) = true.
Proof.
  unfold countable_vlan, count_vlan.
  destruct (getitem vlan "primaryRouter") as [router|]; [|done]. cbn.
  destruct (getitem router "datacenter") as [dc|]; [|done]. cbn.
  destruct (getitem dc "name") as [name|]; [|done]. cbn.
  destruct (hash_key name) as [key|]; [|done]. cbn.
  destruct (getitem vlan "hardware" ≫= py_len); [|done]. cbn.
  destruct (getitem vlan "networkComponents" ≫= py_len); [|done]. cbn.
  destruct (getitem vlan "totalPrimaryIpAddressCount" ≫= int_operand);
    [|done]. cbn.
  destruct (getitem vlan "subnets" ≫= py_len); [|done]. cbn.
  by destruct (getitem vlan "virtualGuests" ≫= py_len).
Qed.

Lemma count_vlans_ok vlans m :
  Forall (fun vlan => countable_vlan vlan = true) vlans ->
  is_ok (count_vlans vlans m) = true.
Proof.
  intros Hvlans. revert m.
  induction Hvlans as [|vlan vlans Hvlan _ IH]; intros m; [done|].
  cbn [count_vlans]. pose proof (count_vlan_ok vlan m Hvlan) as Hok.
  destruct (count_vlan vlan m) as [m1|]; [|done]. apply IH.
Qed.

Lemma vlans_in_cons_eq key vlan vlans :
  vlan_key vlan = Ok key ->
  vlans_in key (vlan :: vlans) = vlan :: vlans_in key vlans.
Proof. intros Hkey. unfold vlans_in. by rewrite filter_cons_True. Qed.

Lemma vlans_in_cons_ne key vlan vlans :
  vlan_key vlan <> Ok key ->
  vlans_in key (vlan :: vlans) = vlans_in key vlans.
Proof. intros Hkey. unfold vlans_in. by rewrite filter_cons_False. Qed.

Lemma vlan_count_in_cons_eq key vlan vlans :
  vlan_key vlan = Ok key ->
  vlan_count_in key (vlan :: vlans) = vlan_count_in key vlans + 1.
Proof.
  intros Hkey. unfold vlan_count_in. rewrite vlans_in_cons_eq by done.
  rewrite length_cons. lia.
Qed.

Lemma vlan_count_in_cons_ne key vlan vlans :
  vlan_key vlan <> Ok key ->
  vlan_count_in key (vlan :: vlans) = vlan_count_in key vlans.
Proof.
  intros Hkey. unfold vlan_count_in. by rewrite vlans_in_cons_ne.
Qed.

Lemma hardware_count_in_cons_eq key vlan vlans hardware :
  vlan_key vlan = Ok key -> vlan_hardware vlan = Ok hardware ->
  hardware_count_in key (vlan :: vlans)
    = hardware_count_in key vlans + hardware.
Proof.
  intros Hkey Hhw. unfold hardware_count_in.
  rewrite vlans_in_cons_eq by done. rewrite fmap_cons.
  unfold hardware_size at 1. rewrite Hhw. unfold Z_sum. cbn [foldr]. lia.
Qed.

Lemma hardware_count_in_cons_ne key vlan vlans :
  vlan_key vlan <> Ok key ->
  hardware_count_in key (vlan :: vlans) = hardware_count_in key vlans.
Proof.
  intros Hkey. unfold hardware_count_in. by rewrite vlans_in_cons_ne.
Qed.

(** The loop invariant, read off at the end: every datacenter's counters
    grew by the VLANs of the listing that reside in it, and a datacenter is
    a key exactly when it was one before or a listed VLAN resides in it. *)
Lemma count_vlans_inv vlans m m' :
  count_vlans vlans m = Ok m' ->
  forall key,
    vlanCount (default no_counts (m' !! key))
      = vlanCount (default no_counts (m !! key)) + vlan_count_in key vlans
    /\ hardwareCount (default no_counts (m' !! key))
         = hardwareCount (default no_counts (m !! key))
           + hardware_count_in key vlans
    /\ (is_Some (m' !! key) <->
        is_Some (m !! key) \/ exists vlan, vlan ∈ vlans /\ vlan_key vlan = Ok key).
Proof.
  revert m. induction vlans as [|vlan vlans IH]; intros m.
  { intros [= <-] key. unfold vlan_count_in, hardware_count_in. cbn.
    split_and!; [lia..|]. split; [by left|]. intros [?|(? & Hin & _)]; [done|].
    by apply elem_of_nil in Hin. }
  cbn [count_vlans]. destruct (count_vlan vlan m) as [m1|] eqn:Hstep; [|done].
  intros Hrest key. cbn in Hrest.
  destruct (count_vlan_inv _ _ _ Hstep)
    as (key0 & hardware & c & Hkey0 & Hhw & -> & Hvc & Hhc).
  destruct (IH _ Hrest key) as (IHv & IHh & IHdom).
  rewrite IHv, IHh, IHdom.
  destruct (decide (key0 = key)) as [->|Hne].
  - rewrite lookup_insert_eq.
    rewrite vlan_count_in_cons_eq by done.
    rewrite (hardware_count_in_cons_eq _ _ _ hardware) by done.
    change (default no_counts (Some c)) with c.
    split_and!; [lia..|]. split.
    + intros _. right. exists vlan. split; [by left|done].
    + intros _. left. by eexists.
  - rewrite lookup_insert_ne by done.
    rewrite vlan_count_in_cons_ne, hardware_count_in_cons_ne by congruence.
    split_and!; [done..|]. split.
    + intros [?|(v & Hin & Hv)]; [by left|].
      right. exists v. split; [by right|done].
    + intros [?|(v & Hin & Hv)]; [by left|].
      apply elem_of_cons in Hin as [->|Hin]; [congruence|].
      right. by exists v.
Qed.

Lemma Z_sum_Permutation l1 l2 : l1 ≡ₚ l2 -> Z_sum l1 = Z_sum l2.
Proof. unfold Z_sum. induction 1; cbn [foldr] in *; lia. Qed.

Lemma vlan_count_in_Permutation key l1 l2 :
  l1 ≡ₚ l2 -> vlan_count_in key l1 = vlan_count_in key l2.
Proof. intros Hperm. unfold vlan_count_in, vlans_in. by rewrite Hperm. Qed.

Lemma hardware_count_in_Permutation key l1 l2 :
  l1 ≡ₚ l2 -> hardware_count_in key l1 = hardware_count_in key l2.
Proof.
  intros Hperm. unfold hardware_count_in, vlans_in.
  apply Z_sum_Permutation. by rewrite Hperm.
Qed.

Lemma count_vlans_from_empty vlans m key :
  count_vlans vlans ∅ = Ok m ->
  (key ∈ dom m <-> exists vlan, vlan ∈ vlans /\ vlan_key vlan = Ok key)
  /\ forall c, m !! key = Some c ->
       vlanCount c = vlan_count_in key vlans
       /\ hardwareCount c = hardware_count_in key vlans.
Proof.
  intros Hrun. destruct (count_vlans_inv _ _ _ Hrun key) as (Hv & Hh & Hdom).
  rewrite lookup_empty in Hv, Hh, Hdom. split.
  - rewrite elem_of_dom, Hdom. split; [|by right].
    by intros [[? [=]]|?].
  - intros c Hc. rewrite Hc in Hv, Hh. cbn in Hv, Hh. split; lia.
Qed.

(** C7.  The example: a listing made of two VLANs of datacenter dal05 with
    hardware lists of sizes 2 and 3 and one VLAN of sjc01 with a hardware
    list of size 1, in any order, is summarised as dal05 with hardwareCount 5
    and vlanCount 2 and sjc01 with hardwareCount 1 and vlanCount 1, and as
    nothing else.  In general: whenever the method returns a summary, its
    keys are exactly the datacenters in which some listed VLAN resides; and
    it does return one when every listed VLAN can be counted. *)
Theorem summary_by_datacenter_counts {S}
    (handle : S -> call -> result pyval * S) (s s1 : S)
    (response : pyval) (vlans : list pyval) :
  handle s vlans_call = (Ok response, s1) ->
  py_iter response = Ok vlans ->
  (forall v1 v2 v3,
     vlans ≡ₚ [v1; v2; v3] ->
     vlan_key v1 = Ok (KStr "dal05") -> vlan_hardware v1 = Ok 2 ->
     countable_vlan v1 = true ->
     vlan_key v2 = Ok (KStr "dal05") -> vlan_hardware v2 = Ok 3 ->
     countable_vlan v2 = true ->
     vlan_key v3 = Ok (KStr "sjc01") -> vlan_hardware v3 = Ok 1 ->
     countable_vlan v3 = true ->
     exists m dal05 sjc01,
       outcome handle summary_by_datacenter s = Ok m
       /\ dom m = {[KStr "dal05"; KStr "sjc01"]}
       /\ m !! KStr "dal05" = Some dal05
       /\ hardwareCount dal05 = 5 /\ vlanCount dal05 = 2
       /\ m !! KStr "sjc01" = Some sjc01
       /\ hardwareCount sjc01 = 1 /\ vlanCount sjc01 = 1)
  /\ (forall m,
        outcome handle summary_by_datacenter s = Ok m ->
        forall key,
          key ∈ dom m <-> exists vlan, vlan ∈ vlans /\ vlan_key vlan = Ok key)
  /\ (Forall (fun vlan => countable_vlan vlan = true) vlans ->
      is_ok (outcome handle summary_by_datacenter s) = true).
Proof.
  intros Hcall Hiter.
  assert (outcome handle summary_by_datacenter s = count_vlans vlans ∅)
    as Hout.
  { unfold outcome. rewrite (summary_by_datacenter_run handle s s1 response)
      by done. by rewrite Hiter. }
  rewrite Hout. split_and!.
  - intros v1 v2 v3 Hperm Hk1 Hh1 Hc1 Hk2 Hh2 Hc2 Hk3 Hh3 Hc3.
    assert (is_ok (count_vlans vlans ∅) = true) as Hok.
    { apply count_vlans_ok. rewrite Hperm. by repeat constructor. }
    destruct (count_vlans vlans ∅) as [m|] eqn:Hrun; [|done].
    assert (forall key, vlan_count_in key vlans = vlan_count_in key [v1; v2; v3])
      as Hvc by (intros; by apply vlan_count_in_Permutation).
    assert (forall key,
      hardware_count_in key vlans = hardware_count_in key [v1; v2; v3])
      as Hhc by (intros; by apply hardware_count_in_Permutation).
    assert (forall key, key ∈ dom m <-> key = KStr "dal05" \/ key = KStr "sjc01")
      as Hdom.
    { intros key. rewrite (proj1 (count_vlans_from_empty _ _ key Hrun)).
      setoid_rewrite Hperm. split.
      - intros (v & Hin & Hv).
        repeat (apply elem_of_cons in Hin as [->|Hin]); [| | |by inv Hin];
          rewrite Hv in *; naive_solver.
      - intros [->| ->]; [exists v1|exists v3]; split; try done;
          repeat constructor. }
    assert (is_Some (m !! KStr "dal05")) as [dal05 Hdal05].
    { apply elem_of_dom, Hdom. by left. }
    assert (is_Some (m !! KStr "sjc01")) as [sjc01 Hsjc01].
    { apply elem_of_dom, Hdom. by right. }
    exists m, dal05, sjc01.
    destruct (proj2 (count_vlans_from_empty _ _ _ Hrun) _ Hdal05) as [Hv1 Hw1].
    destruct (proj2 (count_vlans_from_empty _ _ _ Hrun) _ Hsjc01) as [Hv2 Hw2].
    rewrite Hvc in Hv1, Hv2. rewrite Hhc in Hw1, Hw2.
    rewrite !vlan_count_in_cons_eq, vlan_count_in_cons_ne in Hv1
      by congruence.
    rewrite !(hardware_count_in_cons_eq _ _ _ _ Hk1 Hh1),
      !(hardware_count_in_cons_eq _ _ _ _ Hk2 Hh2),
      hardware_count_in_cons_ne in Hw1 by congruence.
    rewrite !vlan_count_in_cons_ne, vlan_count_in_cons_eq in Hv2
      by congruence.
    rewrite !hardware_count_in_cons_ne,
      (hardware_count_in_cons_eq _ _ _ _ Hk3 Hh3) in Hw2 by congruence.
    split_and!; try done.
    apply set_eq. intros key. split.
    + intros [->| ->]%Hdom; set_solver.
    + intros Hkey. apply Hdom. set_solver.
  - intros m Hrun key. by apply count_vlans_from_empty.
  - apply count_vlans_ok.
Qed.

Lemma summary_by_datacenter_counts_witness :
  exists m dal05 sjc01,
    outcome scripted summary_by_datacenter
      [Ok (PList [vlan_record "dal05" [PInt 1; PInt 2] [] [] [] 4;
                  vlan_record "sjc01" [PInt 6] [PNone] [] [] 0;
                  vlan_record "dal05" [PInt 3; PInt 4; PInt 5] [] [PNone] [] 2])]
      = Ok m
    /\ dom m = {[KStr "dal05"; KStr "sjc01"]}
    /\ m !! KStr "dal05" = Some dal05
    /\ hardwareCount dal05 = 5 /\ vlanCount dal05 = 2
    /\ m !! KStr "sjc01" = Some sjc01
    /\ hardwareCount sjc01 = 1 /\ vlanCount sjc01 = 1.
Proof.
  apply (proj1 (summary_by_datacenter_counts scripted
                  [Ok (PList [vlan_record "dal05" [PInt 1; PInt 2] [] [] [] 4;
                              vlan_record "sjc01" [PInt 6] [PNone] [] [] 0;
                              vlan_record "dal05" [PInt 3; PInt 4; PInt 5]
                                [] [PNone] [] 2])] []
                  (PList [vlan_record "dal05" [PInt 1; PInt 2] [] [] [] 4;
                          vlan_record "sjc01" [PInt 6] [PNone] [] [] 0;
                          vlan_record "dal05" [PInt 3; PInt 4; PInt 5]
                            [] [PNone] [] 2])
                  _ eq_refl eq_refl)
           (vlan_record "dal05" [PInt 1; PInt 2] [] [] [] 4)
           (vlan_record "dal05" [PInt 3; PInt 4; PInt 5] [] [PNone] [] 2)
           (vlan_record "sjc01" [PInt 6] [PNone] [] [] 0)).
  - apply perm_skip, perm_swap.
  - reflexivity.
  - reflexivity.
  - vm_compute; reflexivity.
  - reflexivity.
  - reflexivity.
  - vm_compute; reflexivity.
  - reflexivity.
  - reflexivity.
  - vm_compute; reflexivity.
Defined.

(** ** Filters *)

Lemma dict_get_set_eq {A} k (v : A) d : dict_get k (dict_set k v d) = Some v.
Proof.
  induction d as [|[k' v'] d IH]; cbn.
  - by rewrite String.eqb_refl.
  - destruct (String.eqb k k') eqn:Hk; cbn; by rewrite ?String.eqb_refl, ?Hk.
Qed.

Lemma dict_get_set_ne {A} k k' (v : A) d :
  String.eqb k' k = false -> dict_get k' (dict_set k v d) = dict_get k' d.
Proof.
  intros Hne. induction d as [|[k0 v0] d IH]; cbn.
  - by rewrite Hne.
  - destruct (String.eqb k k0) eqn:Hk; cbn.
    + apply String.eqb_eq in Hk as <-. by rewrite Hne.
    + by rewrite IH.
Qed.

Lemma lookup_path_empty k path : lookup_path (k :: path) (PDict []) = None.
Proof. done. Qed.

(** An assignment at a path is read back at that path. *)
Lemma lookup_set_same path v d d' :
  NestedDict_set path v d = Ok d' -> lookup_path path d' = Some v.
Proof.
  revert d d'. induction path as [|k path IH]; intros d d'; cbn.
  - by intros [= ->].
  - destruct d as [| | | | |entries]; try done.
    destruct (NestedDict_set path v _) as [child|] eqn:Hchild; [|done].
    cbn. intros [= <-]. cbn. rewrite dict_get_set_eq. cbn. by eapply IH.
Qed.

(** An assignment at a path leaves every path it does not overlap as it
    was. *)
Lemma lookup_set_other path q v d d' :
  NestedDict_set path v d = Ok d' -> overlap path q = false ->
  lookup_path q d' = lookup_path q d.
Proof.
  revert q d d'. induction path as [|k path IH]; intros q d d'; [done|].
  destruct q as [|k' q]; [done|]. cbn.
  destruct d as [| | | | |entries]; try done.
  destruct (NestedDict_set path v _) as [child|] eqn:Hchild; [|done].
  cbn. intros [= <-] Hover. cbn.
  destruct (String.eqb k k') eqn:Hk; cbn in Hover.
  - apply String.eqb_eq in Hk as <-. rewrite dict_get_set_eq. cbn.
    rewrite (IH _ _ _ Hchild Hover).
    destruct (dict_get k entries) as [x|]; [done|]. cbn.
    destruct q as [|k'' q]; [|done]. by destruct path.
  - rewrite dict_get_set_ne; [done|].
    rewrite String.eqb_sym. done.
Qed.

Lemma overlap_sym p q : overlap p q = overlap q p.
Proof.
  revert q. induction p as [|a p IH]; intros [|b q]; cbn; try done.
  by rewrite IH, String.eqb_sym.
Qed.

Section Criteria.
Variable query_filter : pyval -> pyval.

Lemma add_criterion_same value path caller sent :
  add_criterion query_filter value path caller = Ok sent ->
  truthy value = true ->
  lookup_path path sent = Some (query_filter value).
Proof.
  unfold add_criterion. intros Hset Htrue. rewrite Htrue in Hset.
  by eapply lookup_set_same.
Qed.

Lemma add_criterion_other value path q caller sent :
  add_criterion query_filter value path caller = Ok sent ->
  (truthy value = true -> overlap path q = false) ->
  lookup_path q sent = lookup_path q caller.
Proof.
  unfold add_criterion. destruct (truthy value).
  - intros Hset Hover. eapply lookup_set_other; [done|by apply Hover].
  - by intros [= ->].
Qed.

(** The first two parts of [merged], by induction on the criteria. *)
Lemma add_criteria_lookup criteria caller sent :
  separate criteria = true ->
  add_criteria query_filter criteria caller = Ok sent ->
  (forall value path, (value, path) ∈ criteria -> truthy value = true ->
     lookup_path path sent = Some (query_filter value))
  /\ (forall path,
        (forall value p, (value, p) ∈ criteria -> truthy value = true ->
           overlap p path = false) ->
        lookup_path path sent = lookup_path path caller).
Proof.
  revert caller. induction criteria as [|[v p] rest IH]; intros caller Hsep.
  { intros [= ->]. split; [|done]. intros ?? Hin. by apply elem_of_nil in Hin. }
  cbn in Hsep. apply andb_true_iff in Hsep as [Hp Hrest].
  rewrite forallb_forall in Hp. cbn [add_criteria].
  destruct (add_criterion query_filter v p caller) as [mid|] eqn:Hmid; [|done].
  cbn. intros Hsent. destruct (IH mid Hrest Hsent) as [IHsame IHother].
  split.
  - intros value path [[= -> ->]|Hin]%elem_of_cons Htrue.
    + rewrite IHother; [by eapply add_criterion_same|].
      intros value' p' Hin' _. apply list_elem_of_In, Hp in Hin'.
      apply negb_true_iff in Hin'. by rewrite overlap_sym.
    + by apply IHsame.
  - intros path Hpath. rewrite IHother.
    + eapply add_criterion_other; [done|]. intros Htrue.
      eapply Hpath; [by left|done].
    + intros value' p' Hin' Htrue. eapply Hpath; [by right|done].
Qed.

Lemma separate_elem_of criteria value path value' path' :
  separate criteria = true ->
  (value, path) ∈ criteria -> (value', path') ∈ criteria ->
  value <> value' -> overlap path path' = false.
Proof.
  induction criteria as [|[v p] rest IH]; intros Hsep Hin Hin' Hne.
  { by apply elem_of_nil in Hin. }
  cbn in Hsep. apply andb_true_iff in Hsep as [Hp Hrest].
  rewrite forallb_forall in Hp.
  apply elem_of_cons in Hin as [[= -> ->]|Hin];
    apply elem_of_cons in Hin' as [[= -> ->]|Hin'].
  - done.
  - apply list_elem_of_In, Hp in Hin'. by apply negb_true_iff in Hin'.
  - apply list_elem_of_In, Hp in Hin. apply negb_true_iff in Hin.
    by rewrite overlap_sym.
  - by apply IH.
Qed.

Lemma add_criteria_merged criteria caller sent :
  separate criteria = true ->
  add_criteria query_filter criteria caller = Ok sent ->
  merged query_filter criteria caller sent.
Proof.
  intros Hsep Hsent.
  destruct (add_criteria_lookup _ _ _ Hsep Hsent) as [Hsame Hother].
  split_and!; [done..|].
  intros value path Hin Hfalse. apply Hother.
  intros value' p Hin' Htrue. eapply separate_elem_of; [done..|].
  intros ->. congruence.
Qed.

Lemma filter_or_empty_mask kwargs :
  filter_or_empty (with_subnet_mask kwargs) = filter_or_empty kwargs.
Proof.
  unfold with_subnet_mask, filter_or_empty.
  destruct (negb _); [|done]. by rewrite dict_get_set_ne.
Qed.

Lemma list_vlans_eq datacenter vlan_number kwargs :
  list_vlans query_filter datacenter vlan_number kwargs =
    match NestedDict_new (filter_or_empty kwargs)
            ≫= add_criteria query_filter
                 (vlan_criteria datacenter vlan_number) with
    | Ok sent =>
        if dict_has "mask" (dict_set "filter" sent kwargs)
        then Throw TypeError
        else invoke (list_vlans_call kwargs sent)
    | Err e => Throw e
    end.
Proof.
  unfold list_vlans, vlan_criteria.
  destruct (NestedDict_new _) as [f0|]; [|done]. cbn.
  destruct (add_criterion _ vlan_number _ _) as [f1|]; [|done]. cbn.
  by destruct (add_criterion _ datacenter _ _) as [f2|].
Qed.

Lemma list_subnets_eq identifier datacenter version kwargs :
  list_subnets query_filter identifier datacenter version kwargs =
    match NestedDict_new (filter_or_empty kwargs)
            ≫= add_criteria query_filter
                 (subnet_criteria identifier datacenter version) with
    | Ok sent => invoke (list_subnets_call kwargs sent)
    | Err e => Throw e
    end.
Proof.
  unfold list_subnets, subnet_criteria. fold (with_subnet_mask kwargs).
  rewrite filter_or_empty_mask.
  destruct (NestedDict_new _) as [f0|]; [|done]. cbn.
  destruct (add_criterion _ identifier _ _) as [f1|]; [|done]. cbn.
  destruct (add_criterion _ datacenter _ _) as [f2|]; [|done]. cbn.
  by destruct (add_criterion _ version _ _) as [f3|].
Qed.

(** Building a filter only ever fails with a type error: the caller's
    filter, or one of its levels on the way to a criterion, is no mapping. *)
Lemma NestedDict_set_error path v d e :
  NestedDict_set path v d = Err e -> e = TypeError.
Proof.
  revert d. induction path as [|k path IH]; intros d; [done|]. cbn.
  destruct d as [| | | | |entries]; try by intros [= <-].
  destruct (NestedDict_set path v _) as [child|e'] eqn:Hchild; [done|].
  cbn. intros [= <-]. by eapply IH.
Qed.

Lemma add_criteria_error criteria caller e :
  add_criteria query_filter criteria caller = Err e -> e = TypeError.
Proof.
  revert caller. induction criteria as [|[v p] rest IH]; intros caller; [done|].
  cbn [add_criteria].
  destruct (add_criterion query_filter v p caller) as [mid|e'] eqn:Hmid; cbn.
  - apply IH.
  - intros [= <-]. unfold add_criterion in Hmid.
    destruct (truthy v); [|done]. by eapply NestedDict_set_error.
Qed.

Lemma build_filter_error criteria caller e :
  NestedDict_new caller ≫= add_criteria query_filter criteria = Err e ->
  e = TypeError.
Proof.
  destruct caller; cbn; try by intros [= <-].
  apply add_criteria_error.
Qed.
End Criteria.

(** C9, counterexample.  The caller of [list_vlans] passes vlan_number 5
    together with the filter {networkVlans: {vlanNumber: "caller"}}.  The
    filter that is sent holds, at networkVlans.vlanNumber, the entry derived
    from the criterion: the caller's entry at that path is dropped.  This
    does not depend on what [query_filter] computes: for every
    [query_filter] some caller value at that path is replaced by a
    different one. *)
Lemma list_vlans_overwrites_caller_entry :
  (dict_get "filter"
     [("filter",
       PDict [("networkVlans", PDict [("vlanNumber", PStr "caller")])])]
     ≫= lookup_path ["networkVlans"; "vlanNumber"] = Some (PStr "caller")
   /\ list_vlans (fun v => PDict [("operation", v)]) PNone (PInt 5)
        [("filter",
          PDict [("networkVlans", PDict [("vlanNumber", PStr "caller")])])]
      = invoke (list_vlans_call
                  [("filter",
                    PDict [("networkVlans",
                            PDict [("vlanNumber", PStr "caller")])])]
                  (PDict [("networkVlans",
                           PDict [("vlanNumber",
                                   PDict [("operation", PInt 5)])])]))
   /\ lookup_path ["networkVlans"; "vlanNumber"]
        (PDict [("networkVlans",
                 PDict [("vlanNumber", PDict [("operation", PInt 5)])])])
      = Some (PDict [("operation", PInt 5)])
   /\ PDict [("operation", PInt 5)] <> PStr "caller")
  /\ (forall query_filter : pyval -> pyval,
      exists v,
        list_vlans query_filter PNone (PInt 5)
          [("filter", PDict [("networkVlans", PDict [("vlanNumber", v)])])]
        = invoke (list_vlans_call
                    [("filter",
                      PDict [("networkVlans", PDict [("vlanNumber", v)])])]
                    (PDict [("networkVlans",
                             PDict [("vlanNumber",
                                     query_filter (PInt 5))])]))
        /\ query_filter (PInt 5) <> v).
Proof.
  split; [by split_and!|]. intros query_filter.
  exists (match query_filter (PInt 5) with
          | PNone => PBool true
          | _ => PNone
          end).
  split; [done|]. by destruct (query_filter (PInt 5)).
Qed.

Lemma filter_or_empty_supplied kwargs f :
  dict_get "filter" kwargs = Some f -> truthy f = true ->
  filter_or_empty kwargs = f.
Proof. unfold filter_or_empty. by intros -> ->. Qed.

Lemma filter_or_empty_absent kwargs :
  (forall f, dict_get "filter" kwargs = Some f -> truthy f = false) ->
  filter_or_empty kwargs = PDict [].
Proof.
  unfold filter_or_empty. intros Hfalsy.
  destruct (dict_get "filter" kwargs) as [f|]; [|done].
  by rewrite (Hfalsy f).
Qed.

Lemma NestedDict_new_inv caller d :
  NestedDict_new caller = Ok d -> d = caller.
Proof. destruct caller; by intros [= <-]. Qed.

(** C9, amended.  The caller's filter is the value of the filter keyword
    argument; an absent or falsy one counts as the empty filter.  A call of
    [list_vlans] or [list_subnets] either fails with a type error before
    anything is sent, or issues its one listing call with a filter that is
    [merged] from the caller's filter: at the path of every supplied
    criterion it holds the query filter derived from it (replacing what the
    caller had there), at every path that overlaps no supplied criterion it
    reads as the caller's filter does, and at the path of a criterion left
    unsupplied it reads as the caller's filter does, so no key is added for
    it.  Without a caller filter the call is always issued. *)
Theorem list_filters_merge (query_filter : pyval -> pyval) :
  (forall datacenter vlan_number kwargs f,
     dict_get "filter" kwargs = Some f -> truthy f = true ->
     list_vlans query_filter datacenter vlan_number kwargs = Throw TypeError
     \/ exists sent,
          list_vlans query_filter datacenter vlan_number kwargs
            = invoke (list_vlans_call kwargs sent)
          /\ merged query_filter (vlan_criteria datacenter vlan_number)
               f sent)
  /\ (forall identifier datacenter version kwargs f,
        dict_get "filter" kwargs = Some f -> truthy f = true ->
        list_subnets query_filter identifier datacenter version kwargs
          = Throw TypeError
        \/ exists sent,
             list_subnets query_filter identifier datacenter version kwargs
               = invoke (list_subnets_call kwargs sent)
             /\ merged query_filter
                  (subnet_criteria identifier datacenter version) f sent)
  /\ (forall datacenter vlan_number kwargs,
        (forall f, dict_get "filter" kwargs = Some f -> truthy f = false) ->
        dict_has "mask" kwargs = false ->
        exists sent,
          list_vlans query_filter datacenter vlan_number kwargs
            = invoke (list_vlans_call kwargs sent)
          /\ merged query_filter (vlan_criteria datacenter vlan_number)
               (PDict []) sent)
  /\ (forall identifier datacenter version kwargs,
        (forall f, dict_get "filter" kwargs = Some f -> truthy f = false) ->
        exists sent,
          list_subnets query_filter identifier datacenter version kwargs
            = invoke (list_subnets_call kwargs sent)
          /\ merged query_filter
               (subnet_criteria identifier datacenter version)
               (PDict []) sent).
Proof.
  split_and!.
  - intros datacenter vlan_number kwargs f Hf Htrue. rewrite list_vlans_eq.
    rewrite (filter_or_empty_supplied kwargs f Hf Htrue).
    destruct (_ ≫= _) as [sent|e] eqn:Hbuild.
    + unfold dict_has. rewrite dict_get_set_ne by done.
      fold (dict_has "mask" kwargs).
      destruct (dict_has "mask" kwargs); [by left|]. right. exists sent.
      split; [done|].
      destruct (NestedDict_new f) as [caller|] eqn:Hnew; [|done].
      apply NestedDict_new_inv in Hnew as ->.
      by apply add_criteria_merged.
    + left. by rewrite (build_filter_error _ _ _ _ Hbuild).
  - intros identifier datacenter version kwargs f Hf Htrue.
    rewrite list_subnets_eq.
    rewrite (filter_or_empty_supplied kwargs f Hf Htrue).
    destruct (_ ≫= _) as [sent|e] eqn:Hbuild.
    + right. exists sent. split; [done|].
      destruct (NestedDict_new f) as [caller|] eqn:Hnew; [|done].
      apply NestedDict_new_inv in Hnew as ->.
      by apply add_criteria_merged.
    + left. by rewrite (build_filter_error _ _ _ _ Hbuild).
  - intros datacenter vlan_number kwargs Hfalsy Hmask.
    rewrite list_vlans_eq, (filter_or_empty_absent kwargs Hfalsy).
    change (NestedDict_new (PDict []) ≫= ?k) with (k (PDict [])).
    destruct (add_criteria _ _ _) as [sent|e] eqn:Hbuild.
    + unfold dict_has in *. rewrite dict_get_set_ne by done.
      destruct (dict_get "mask" kwargs); [done|]. exists sent.
      split; [done|]. by apply add_criteria_merged.
    + exfalso. revert Hbuild. unfold vlan_criteria, add_criteria, add_criterion.
      by destruct (truthy vlan_number), (truthy datacenter).
  - intros identifier datacenter version kwargs Hfalsy.
    rewrite list_subnets_eq, (filter_or_empty_absent kwargs Hfalsy).
    change (NestedDict_new (PDict []) ≫= ?k) with (k (PDict [])).
    destruct (add_criteria _ _ _) as [sent|e] eqn:Hbuild.
    + exists sent. split; [done|]. by apply add_criteria_merged.
    + exfalso. revert Hbuild.
      unfold subnet_criteria, add_criteria, add_criterion.
      by destruct (truthy identifier), (truthy datacenter), (truthy version).
Qed.

Lemma list_filters_merge_witness :
  exists sent,
    list_vlans (fun v => PDict [("operation", v)]) PNone (PInt 1234)
      [("filter", PDict [("networkVlans", PDict [("id", PInt 7)])]);
       ("limit", PInt 10)]
      = invoke (list_vlans_call
                  [("filter", PDict [("networkVlans", PDict [("id", PInt 7)])]);
                   ("limit", PInt 10)] sent)
    /\ merged (fun v => PDict [("operation", v)])
         (vlan_criteria PNone (PInt 1234))
         (PDict [("networkVlans", PDict [("id", PInt 7)])]) sent.
Proof.
  destruct (proj1 (list_filters_merge (fun v => PDict [("operation", v)]))
              PNone (PInt 1234)
              [("filter", PDict [("networkVlans", PDict [("id", PInt 7)])]);
               ("limit", PInt 10)]
              (PDict [("networkVlans", PDict [("id", PInt 7)])])
              eq_refl eq_refl) as [Hraise|Hsent].
  - vm_compute in Hraise. discriminate Hraise.
  - exact Hsent.
Defined.

(** ** get_subnet and cancel_subnet *)

Lemma get_subnet_by_identifier_run {S}
    (handle : S -> call -> result pyval * S) query_filter s identifier :
  exec handle (_get_subnet_by_identifier query_filter identifier) s =
    match handle s (lookup_call query_filter identifier) with
    | (Ok results, s1) =>
        ([lookup_call query_filter identifier],
         PList <$> (py_iter results
                      ≫= comprehension (fun r => getitem r "id")), s1)
    | (Err e, s1) => ([lookup_call query_filter identifier], Err e, s1)
    end.
Proof.
  unfold _get_subnet_by_identifier, list_subnets, lookup_call, add_criterion.
  destruct (truthy identifier); cbn;
    (destruct (handle s _) as [[results|e] s1]; [|done]);
    (destruct (py_iter results) as [records|]; [|done]); cbn;
    by destruct (comprehension _ records).
Qed.

(** C8.  With [resolve_ids] as the spec describes it: a numeric id is
    fetched directly, the fetch being the only call; for any other
    identifier the first call is the lookup of the subnets with that network
    identifier, and the fetch that follows uses the id of the first record
    the lookup returned.  When the lookup finds nothing, no fetch is
    issued. *)
Theorem get_subnet_resolution {S} (handle : S -> call -> result pyval * S)
    (query_filter : pyval -> pyval) (s : S) (id : pyval)
    (kwargs : list (string * pyval)) :
  (forall n, numeric_id id = Some n ->
     exec handle (get_subnet query_filter spec_resolve_ids id kwargs) s
       = ([fetch_call (PInt n) kwargs],
          (handle s (fetch_call (PInt n) kwargs)).1,
          (handle s (fetch_call (PInt n) kwargs)).2))
  /\ (numeric_id id = None ->
      exists rest,
        trace handle (get_subnet query_filter spec_resolve_ids id kwargs) s
          = lookup_call query_filter id :: rest)
  /\ (numeric_id id = None ->
      forall results s1 records first others,
        handle s (lookup_call query_filter id) = (Ok results, s1) ->
        py_iter results = Ok records ->
        comprehension (fun r => getitem r "id") records
          = Ok (first :: others) ->
        exec handle (get_subnet query_filter spec_resolve_ids id kwargs) s
          = ([lookup_call query_filter id; fetch_call first kwargs],
             (handle s1 (fetch_call first kwargs)).1,
             (handle s1 (fetch_call first kwargs)).2))
  /\ (numeric_id id = None ->
      forall results s1,
        handle s (lookup_call query_filter id) = (Ok results, s1) ->
        py_iter results = Ok [] ->
        exec handle (get_subnet query_filter spec_resolve_ids id kwargs) s
          = ([lookup_call query_filter id], Err IndexError, s1)).
Proof.
  unfold get_subnet, spec_resolve_ids, subnet_resolvers. fold (with_subnet_mask kwargs).
  split_and!.
  - intros n ->. cbn. unfold fetch_call.
    by destruct (handle s _) as [[r|e] s'].
  - intros ->. cbn [try_resolvers]. unfold trace.
    rewrite !exec_bind, get_subnet_by_identifier_run.
    destruct (handle s _) as [[results|e] s1]; [|by eexists].
    destruct (py_iter results ≫= _) as [ids|]; cbn [fmap result_fmap];
      [|by eexists].
    destruct (truthy (PList ids)); cbn [exec];
      destruct (exec handle _ s1) as [[t' o] s3]; by eexists.
  - intros -> results s1 records first others Hcall Hiter Hids.
    cbn [try_resolvers].
    rewrite !exec_bind, get_subnet_by_identifier_run, Hcall, Hiter.
    cbn. rewrite Hids. cbn. unfold fetch_call.
    by destruct (handle s1 _) as [[r|e] s'].
  - intros -> results s1 Hcall Hiter. cbn [try_resolvers].
    rewrite !exec_bind, get_subnet_by_identifier_run, Hcall, Hiter.
    done.
Qed.

Lemma get_subnet_resolution_witness :
  exec scripted
    (get_subnet (fun v => PDict [("operation", v)]) spec_resolve_ids
       (PStr "10.0.1.0") [])
    [Ok (PList [PDict [("id", PInt 4242)]]); Ok (PDict [("id", PInt 4242)])]
  = ([lookup_call (fun v => PDict [("operation", v)]) (PStr "10.0.1.0");
      fetch_call (PInt 4242) []],
     (scripted [Ok (PDict [("id", PInt 4242)])]
        (fetch_call (PInt 4242) [])).1,
     (scripted [Ok (PDict [("id", PInt 4242)])]
        (fetch_call (PInt 4242) [])).2).
Proof.
  apply (proj1 (proj2 (proj2
           (get_subnet_resolution scripted
              (fun v => PDict [("operation", v)])
              [Ok (PList [PDict [("id", PInt 4242)]]);
               Ok (PDict [("id", PInt 4242)])]
              (PStr "10.0.1.0") [])))
           eq_refl (PList [PDict [("id", PInt 4242)]])
           [Ok (PDict [("id", PInt 4242)])]
           [PDict [("id", PInt 4242)]] (PInt 4242) []).
  - reflexivity.
  - reflexivity.
  - reflexivity.
Defined.

(** C10.  [cancel_subnet] fetches the subnet, once its id is resolved, with
    the mask "mask[id, billingItem.id]"; the cancelService call that follows
    carries exactly the [id] found under the fetched subnet's [billingItem].
    When the fetched subnet has no billingItem, the method raises the
    missing-key error and no cancellation is issued. *)
Theorem cancel_subnet_uses_billing_item {S}
    (handle : S -> call -> result pyval * S)
    (query_filter : pyval -> pyval)
    (resolve_ids : pyval -> list (pyval -> prog pyval) -> prog pyval)
    (s s1 s2 : S) (id ids first subnet : pyval) (resolution : list call) :
  exec handle (resolve_ids id (subnet_resolvers query_filter)) s
    = (resolution, Ok ids, s1) ->
  getindex ids 0 = Ok first ->
  handle s1 (fetch_call first [("mask", PStr "mask[id, billingItem.id]")])
    = (Ok subnet, s2) ->
  dict_get "mask"
    (kwargs (fetch_call first [("mask", PStr "mask[id, billingItem.id]")]))
    = Some (PStr "mask[id, billingItem.id]")
  /\ (forall billing_item billing_id,
        getitem subnet "billingItem" = Ok billing_item ->
        getitem billing_item "id" = Ok billing_id ->
        exec handle (cancel_subnet query_filter resolve_ids id) s
          = (resolution
               ++ [fetch_call first
                     [("mask", PStr "mask[id, billingItem.id]")];
                   cancel_call billing_id],
             (handle s2 (cancel_call billing_id)).1,
             (handle s2 (cancel_call billing_id)).2))
  /\ (forall entries,
        subnet = PDict entries -> dict_get "billingItem" entries = None ->
        exec handle (cancel_subnet query_filter resolve_ids id) s
          = (resolution
               ++ [fetch_call first
                     [("mask", PStr "mask[id, billingItem.id]")]],
             Err (KeyError "billingItem"), s2)).
Proof.
  intros Hresolve Hfirst Hfetch. split; [done|].
  assert (exec handle
            (get_subnet query_filter resolve_ids id
               [("mask", PStr "mask[id, billingItem.id]")]) s
          = (resolution
               ++ [fetch_call first
                     [("mask", PStr "mask[id, billingItem.id]")]],
             Ok subnet, s2)) as Hget.
  { unfold get_subnet. rewrite exec_bind, Hresolve, exec_bind, exec_lift.
    rewrite Hfirst. cbn [app]. rewrite exec_invoke.
    unfold fetch_call, with_subnet_mask in *. cbn in *. by rewrite Hfetch. }
  unfold cancel_subnet. split.
  - intros billing_item billing_id Hitem Hid.
    rewrite exec_bind, Hget, exec_bind, exec_lift, Hitem.
    rewrite exec_bind, exec_lift, Hid. cbn [app]. rewrite exec_invoke.
    fold (cancel_call billing_id). by rewrite <- app_assoc.
  - intros entries -> Hnone.
    rewrite exec_bind, Hget, exec_bind, exec_lift. cbn. rewrite Hnone.
    by rewrite app_nil_r.
Qed.

Lemma cancel_subnet_uses_billing_item_witness :
  exec scripted (cancel_subnet (fun v => v) spec_resolve_ids (PInt 77))
    [Ok (PDict [("id", PInt 77); ("billingItem", PDict [("id", PInt 1234)])]);
     Ok (PBool true)]
  = ([] ++ [fetch_call (PInt 77) [("mask", PStr "mask[id, billingItem.id]")];
            cancel_call (PInt 1234)],
     (scripted [Ok (PBool true)] (cancel_call (PInt 1234))).1,
     (scripted [Ok (PBool true)] (cancel_call (PInt 1234))).2).
Proof.
  apply (proj1 (proj2
           (cancel_subnet_uses_billing_item scripted (fun v => v)
              spec_resolve_ids
              [Ok (PDict [("id", PInt 77);
                          ("billingItem", PDict [("id", PInt 1234)])]);
               Ok (PBool true)]
              _ [Ok (PBool true)] (PInt 77) (PList [PInt 77]) (PInt 77)
              (PDict [("id", PInt 77);
                      ("billingItem", PDict [("id", PInt 1234)])])
              [] eq_refl eq_refl eq_refl))
           (PDict [("id", PInt 1234)]) (PInt 1234)).
  - reflexivity.
  - reflexivity.
Defined.

(** ** Further properties of the methods *)

(** X2.  A None result of [add_subnet] has one of two origins: the scan found no
    price and the catalog query was the only call, or an order call was
    issued and the order service itself answered None. *)
Lemma add_subnet_none_origin {S} (handle : S -> call -> result pyval * S)
    (s : S) (type : string) (quantity : option Z) (vlan_id : pyval)
    (version : Z) (test_order : bool) :
  outcome handle (add_subnet type quantity vlan_id version test_order) s
    = Ok PNone ->
  trace handle (add_subnet type quantity vlan_id version test_order) s
    = [catalog_call]
  \/ exists price_id s1,
       trace handle (add_subnet type quantity vlan_id version test_order) s
         = [catalog_call; order_call type vlan_id price_id test_order]
       /\ (handle s1 (order_call type vlan_id price_id test_order)).1
            = Ok PNone.
Proof.
  unfold outcome, trace.
  destruct (handle s catalog_call) as [[response|e] s1] eqn:Hcall.
  - rewrite (add_subnet_run handle s s1 _ _ _ _ _ _ Hcall).
    destruct (_ ≫= _) as [price_id|]; [|done].
    destruct (truthy price_id); [|by left].
    cbn. intros Hnone. right. by exists price_id, s1.
  - unfold add_subnet.
    destruct (add_subnet_category _ _ _) as [[??]?]. cbn. by rewrite Hcall.
Qed.

Lemma add_subnet_none_origin_witness :
  trace scripted (add_subnet "public" (Some 4) (PInt 9) 4 false)
    [Ok (PList [catalog_item "sov_sec_ip_addresses_pub" "4" "four" 1]);
     Ok PNone] = [catalog_call]
  \/ exists price_id s1,
       trace scripted (add_subnet "public" (Some 4) (PInt 9) 4 false)
         [Ok (PList [catalog_item "sov_sec_ip_addresses_pub" "4" "four" 1]);
          Ok PNone]
         = [catalog_call; order_call "public" (PInt 9) price_id false]
       /\ (scripted s1 (order_call "public" (PInt 9) price_id false)).1
            = Ok PNone.
Proof.
  apply (add_subnet_none_origin scripted
           [Ok (PList [catalog_item "sov_sec_ip_addresses_pub" "4" "four" 1]);
            Ok PNone] "public" (Some 4) (PInt 9) 4 false).
  reflexivity.
Defined.

(** X3.  [list_vlans] cannot be given a mask: the keyword reaches
    getNetworkVlans next to the standard VLAN mask, and the call is refused
    before anything is sent. *)
Lemma list_vlans_rejects_mask {S} (handle : S -> call -> result pyval * S)
    (query_filter : pyval -> pyval) (s : S) (datacenter vlan_number : pyval)
    (kwargs : list (string * pyval)) :
  dict_has "mask" kwargs = true ->
  dict_get "filter" kwargs = None ->
  exec handle (list_vlans query_filter datacenter vlan_number kwargs) s
    = ([], Err TypeError, s).
Proof.
  intros Hmask Hfilter. rewrite list_vlans_eq.
  unfold filter_or_empty. rewrite Hfilter. cbn. unfold add_criterion.
  destruct (truthy vlan_number), (truthy datacenter); cbn;
    unfold dict_has in *; rewrite dict_get_set_ne by done;
    by destruct (dict_get "mask" kwargs).
Qed.

Lemma list_vlans_rejects_mask_witness :
  exec scripted
    (list_vlans (fun v => v) (PStr "dal05") PNone [("mask", PStr "mask[id]")])
    [Ok (PList [])]
  = ([], Err TypeError, [Ok (PList [])]).
Proof.
  apply (list_vlans_rejects_mask scripted (fun v => v) [Ok (PList [])]
           (PStr "dal05") PNone [("mask", PStr "mask[id]")]).
  - reflexivity.
  - reflexivity.
Defined.

(** ** add_subnet: calls, edge cases and what is ignored *)

(** Every run of [add_subnet] has one of three shapes. *)
Lemma add_subnet_cases {S} (handle : S -> call -> result pyval * S) (s : S)
    type quantity vlan_id version test_order :
  (exists e s1,
     exec handle (add_subnet type quantity vlan_id version test_order) s
       = ([catalog_call], Err e, s1))
  \/ (exists s1,
        exec handle (add_subnet type quantity vlan_id version test_order) s
          = ([catalog_call], Ok PNone, s1))
  \/ (exists price_id s1,
        truthy price_id = true
        /\ exec handle (add_subnet type quantity vlan_id version test_order) s
             = ([catalog_call; order_call type vlan_id price_id test_order],
                (handle s1 (order_call type vlan_id price_id test_order)).1,
                (handle s1 (order_call type vlan_id price_id test_order)).2)).
Proof.
  destruct (handle s catalog_call) as [[response|e] s1] eqn:Hcall.
  - rewrite (add_subnet_run handle s s1 _ _ _ _ _ _ Hcall).
    destruct (_ ≫= _) as [price_id|e]; [|left; by eexists _, _].
    destruct (truthy price_id) eqn:Htrue.
    + right. right. by exists price_id, s1.
    + right. left. by eexists.
  - left. exists e, s1. unfold add_subnet.
    destruct (add_subnet_category _ _ _) as [[??]?]. cbn. by rewrite Hcall.
Qed.

(** X4.  Whatever the client answers, [add_subnet] queries the catalog first and
    issues at most one more call: the order call, carrying a price
    identifier the method accepted. *)
Theorem add_subnet_at_most_two_calls {S}
    (handle : S -> call -> result pyval * S) (s : S)
    (type : string) (quantity : option Z) (vlan_id : pyval) (version : Z)
    (test_order : bool) :
  trace handle (add_subnet type quantity vlan_id version test_order) s
    = [catalog_call]
  \/ exists price_id,
       truthy price_id = true
       /\ trace handle (add_subnet type quantity vlan_id version test_order) s
            = [catalog_call; order_call type vlan_id price_id test_order].
Proof.
  unfold trace.
  destruct (add_subnet_cases handle s type quantity vlan_id version test_order)
    as [(e & s1 & ->)|[(s1 & ->)|(p & s1 & Hp & ->)]]; [by left..|].
  right. by exists p.
Qed.

(** X5.  A test order never places an order, and a real order is never merely
    verified: no call of the run has the other method's name. *)
Theorem add_subnet_dry_run_never_places {S}
    (handle : S -> call -> result pyval * S) (s : S)
    (type : string) (quantity : option Z) (vlan_id : pyval) (version : Z)
    (test_order : bool) :
  Forall (fun c =>
            method c <> (if test_order then "placeOrder" else "verifyOrder"))
    (trace handle (add_subnet type quantity vlan_id version test_order) s).
Proof.
  unfold trace.
  destruct (add_subnet_cases handle s type quantity vlan_id version test_order)
    as [(e & s1 & ->)|[(s1 & ->)|(p & s1 & Hp & ->)]]; cbn;
    repeat constructor; by destruct test_order.
Qed.

Lemma item_matches_other_version category quantity version desc item :
  version <> 4 -> version <> 6 ->
  item_matches category quantity version desc item <> Ok true.
Proof.
  intros H4%Z.eqb_neq H6%Z.eqb_neq. unfold item_matches. rewrite H4, H6.
  destruct (py_get item _ _) as [item_category|]; [|done]. cbn.
  destruct (py_get item_category _ _) as [category_code|]; [|done]. cbn.
  destruct (py_eq_str category_code category); [|done]. cbn.
  destruct (getitem item "capacity") as [capacity|]; [|done]. cbn.
  by destruct (py_eq_str capacity quantity).
Qed.

Lemma scan_items_never_match category quantity version desc items price_id :
  (forall item,
     item_matches category quantity version desc item <> Ok true) ->
  scan_items category quantity version desc items price_id = Ok price_id
  \/ exists e,
       scan_items category quantity version desc items price_id = Err e.
Proof.
  intros Hnever. induction items as [|item items IH]; [by left|].
  cbn [scan_items]. specialize (Hnever item).
  destruct (item_matches _ _ _ _ item) as [[]|e]; cbn; [done|done|].
  right. by eexists.
Qed.

(** X6.  With a version other than 4 and 6 no item can pass the test of the
    loop: the method never orders anything; it returns None or raises. *)
Theorem add_subnet_other_version_never_orders {S}
    (handle : S -> call -> result pyval * S) (s : S)
    (type : string) (quantity : option Z) (vlan_id : pyval) (version : Z)
    (test_order : bool) :
  version <> 4 -> version <> 6 ->
  trace handle (add_subnet type quantity vlan_id version test_order) s
    = [catalog_call]
  /\ (outcome handle (add_subnet type quantity vlan_id version test_order) s
        = Ok PNone
      \/ exists e,
           outcome handle
             (add_subnet type quantity vlan_id version test_order) s = Err e).
Proof.
  intros H4 H6. unfold trace, outcome.
  destruct (handle s catalog_call) as [[response|e] s1] eqn:Hcall.
  - rewrite (add_subnet_run handle s s1 _ _ _ _ _ _ Hcall).
    destruct (py_iter response) as [items|e]; cbn; [|split; [done|eauto]].
    unfold find_price.
    destruct (add_subnet_category _ _ _) as [[category q] desc].
    destruct (scan_items_never_match category (py_str q) version desc items
                PNone) as [->|[e ->]]; cbn.
    + by intros; apply item_matches_other_version.
    + split; [done|by left].
    + split; [done|eauto].
  - unfold add_subnet.
    destruct (add_subnet_category _ _ _) as [[??]?]. cbn. rewrite Hcall.
    cbn. split; [done|eauto].
Qed.

Lemma add_subnet_other_version_never_orders_witness :
  trace scripted (add_subnet "public" (Some 4) (PInt 9) 5 false)
    [Ok (PList [catalog_item "static_ipv6_addresses" "4" "Portable" 1]);
     Ok (PStr "receipt")] = [catalog_call]
  /\ (outcome scripted (add_subnet "public" (Some 4) (PInt 9) 5 false)
        [Ok (PList [catalog_item "static_ipv6_addresses" "4" "Portable" 1]);
         Ok (PStr "receipt")] = Ok PNone
      \/ exists e,
           outcome scripted (add_subnet "public" (Some 4) (PInt 9) 5 false)
             [Ok (PList [catalog_item "static_ipv6_addresses" "4"
                           "Portable" 1]);
              Ok (PStr "receipt")] = Err e).
Proof.
  apply (add_subnet_other_version_never_orders scripted
           [Ok (PList [catalog_item "static_ipv6_addresses" "4" "Portable" 1]);
            Ok (PStr "receipt")] "public" (Some 4) (PInt 9) 5 false); lia.
Defined.

(** X7.  For a global subnet the arguments [quantity] and [vlan_id] play no
    part: the method is the same program whatever they are. *)
Theorem add_subnet_global_ignores_quantity_and_vlan
    (quantity quantity' : option Z) (vlan_id vlan_id' : pyval) (version : Z)
    (test_order : bool) :
  add_subnet "global" quantity vlan_id version test_order
    = add_subnet "global" quantity' vlan_id' version test_order.
Proof.
  unfold add_subnet, add_subnet_category.
  by destruct (version =? 4).
Qed.

Lemma item_matches_other_category category quantity version desc item :
  other_category category item = true ->
  item_matches category quantity version desc item = Ok false.
Proof.
  unfold other_category, item_matches.
  destruct item as [| | | | |entries]; try done. cbn.
  destruct (dict_get "itemCategory" entries) as [[| | | | |ic]|]; try done; cbn.
  by intros ->%negb_true_iff.
Qed.

(** X8.  Items of other categories are passed over without a look at their other
    fields: a catalog that holds only such items (or nothing at all) makes
    [add_subnet] return None, whatever keys those items lack. *)
Theorem add_subnet_skips_other_categories {S}
    (handle : S -> call -> result pyval * S) (s s1 : S)
    (type : string) (quantity : option Z) (vlan_id : pyval) (version : Z)
    (test_order : bool) (category : string) (q : option Z)
    (desc : option string) (response : pyval) (items : list pyval) :
  add_subnet_category type quantity version = (category, q, desc) ->
  handle s catalog_call = (Ok response, s1) ->
  py_iter response = Ok items ->
  Forall (fun item => other_category category item = true) items ->
  exec handle (add_subnet type quantity vlan_id version test_order) s
    = ([catalog_call], Ok PNone, s1).
Proof.
  intros Hcat Hcall Hiter Hitems.
  rewrite (add_subnet_run handle s s1 _ _ _ _ _ _ Hcall), Hiter.
  cbn. unfold find_price. rewrite Hcat.
  rewrite scan_items_no_match; [done|].
  eapply Forall_impl; [done|]. intros item Hitem.
  by apply item_matches_other_category.
Qed.

Lemma add_subnet_skips_other_categories_witness :
  exec scripted (add_subnet "private" (Some 8) (PInt 9) 4 true)
    [Ok (PList [PDict [];
                PDict [("itemCategory", PDict [])];
                PDict [("itemCategory",
                        PDict [("categoryCode", PStr "global_ipv4")])]]);
     Ok (PStr "receipt")]
  = ([catalog_call], Ok PNone, [Ok (PStr "receipt")]).
Proof.
  apply (add_subnet_skips_other_categories scripted _ _
           "private" (Some 8) (PInt 9) 4 true
           "sov_sec_ip_addresses_priv" (Some 8) None
           (PList [PDict [];
                   PDict [("itemCategory", PDict [])];
                   PDict [("itemCategory",
                           PDict [("categoryCode", PStr "global_ipv4")])]])
           [PDict [];
            PDict [("itemCategory", PDict [])];
            PDict [("itemCategory",
                    PDict [("categoryCode", PStr "global_ipv4")])]]).
  - reflexivity.
  - reflexivity.
  - reflexivity.
  - repeat constructor.
Defined.

Lemma scan_items_price_error category quantity version desc pre item post
    price_id e :
  Forall (fun i => scans_ok category quantity version desc i = true) pre ->
  item_matches category quantity version desc item = Ok true ->
  first_price item = Err e ->
  scan_items category quantity version desc (pre ++ item :: post) price_id
    = Err e.
Proof.
  intros Hpre Hitem Hprice. rewrite scan_items_app.
  pose proof (scan_items_ok _ _ _ _ pre price_id Hpre) as Hok.
  destruct (scan_items _ _ _ _ pre price_id) as [p|]; [|done].
  cbn. rewrite Hitem. cbn. by rewrite Hprice.
Qed.

(** X9.  A matching item whose list of prices is empty makes [add_subnet] raise
    the index error of [item['prices'][0]]; nothing is ordered, even when
    other items of the catalog match as well. *)
Theorem add_subnet_empty_prices_raises {S}
    (handle : S -> call -> result pyval * S) (s s1 : S)
    (type : string) (quantity : option Z) (vlan_id : pyval) (version : Z)
    (test_order : bool) (category : string) (q : option Z)
    (desc : option string) (response : pyval) (pre post : list pyval)
    (item : pyval) :
  add_subnet_category type quantity version = (category, q, desc) ->
  handle s catalog_call = (Ok response, s1) ->
  py_iter response = Ok (pre ++ item :: post) ->
  Forall (fun i => scans_ok category (py_str q) version desc i = true) pre ->
  item_matches category (py_str q) version desc item = Ok true ->
  getitem item "prices" = Ok (PList []) ->
  exec handle (add_subnet type quantity vlan_id version test_order) s
    = ([catalog_call], Err IndexError, s1).
Proof.
  intros Hcat Hcall Hiter Hpre Hitem Hprices.
  rewrite (add_subnet_run handle s s1 _ _ _ _ _ _ Hcall), Hiter.
  cbn. unfold find_price. rewrite Hcat.
  rewrite (scan_items_price_error _ _ _ _ _ _ _ _ IndexError); try done.
  unfold first_price. by rewrite Hprices.
Qed.

Lemma add_subnet_empty_prices_raises_witness :
  exec scripted (add_subnet "public" (Some 4) (PInt 9) 4 false)
    [Ok (PList [catalog_item "sov_sec_ip_addresses_pub" "4" "four" 1;
                PDict [("itemCategory",
                        PDict [("categoryCode",
                                PStr "sov_sec_ip_addresses_pub")]);
                       ("capacity", PStr "4");
                       ("prices", PList [])]]);
     Ok (PStr "receipt")]
  = ([catalog_call], Err IndexError, [Ok (PStr "receipt")]).
Proof.
  apply (add_subnet_empty_prices_raises scripted _ _
           "public" (Some 4) (PInt 9) 4 false
           "sov_sec_ip_addresses_pub" (Some 4) None
           (PList [catalog_item "sov_sec_ip_addresses_pub" "4" "four" 1;
                   PDict [("itemCategory",
                           PDict [("categoryCode",
                                   PStr "sov_sec_ip_addresses_pub")]);
                          ("capacity", PStr "4");
                          ("prices", PList [])]])
           [catalog_item "sov_sec_ip_addresses_pub" "4" "four" 1] []
           (PDict [("itemCategory",
                    PDict [("categoryCode",
                            PStr "sov_sec_ip_addresses_pub")]);
                   ("capacity", PStr "4");
                   ("prices", PList [])])).
  - reflexivity.
  - reflexivity.
  - reflexivity.
  - repeat constructor.
  - vm_compute; reflexivity.
  - reflexivity.
Defined.

(** X10.  A price identifier that is falsy (0, None, an empty string) counts as no
    price: when the last matching item lists such an identifier first, the
    method returns None and orders nothing, although an item matched. *)
Theorem add_subnet_falsy_price_is_no_price {S}
    (handle : S -> call -> result pyval * S) (s s1 : S)
    (type : string) (quantity : option Z) (vlan_id : pyval) (version : Z)
    (test_order : bool) (category : string) (q : option Z)
    (desc : option string) (response : pyval) (pre post : list pyval)
    (item price_id : pyval) :
  add_subnet_category type quantity version = (category, q, desc) ->
  handle s catalog_call = (Ok response, s1) ->
  py_iter response = Ok (pre ++ item :: post) ->
  Forall (fun i => scans_ok category (py_str q) version desc i = true) pre ->
  item_matches category (py_str q) version desc item = Ok true ->
  first_price item = Ok price_id ->
  truthy price_id = false ->
  Forall (fun i =>
    item_matches category (py_str q) version desc i = Ok false) post ->
  exec handle (add_subnet type quantity vlan_id version test_order) s
    = ([catalog_call], Ok PNone, s1).
Proof.
  intros Hcat Hcall Hiter Hpre Hitem Hprice Hfalse Hpost.
  rewrite (add_subnet_run handle s s1 _ _ _ _ _ _ Hcall), Hiter.
  cbn. unfold find_price. rewrite Hcat.
  rewrite (scan_items_last_match _ _ _ _ _ _ _ _ price_id) by done.
  by rewrite Hfalse.
Qed.

Lemma add_subnet_falsy_price_is_no_price_witness :
  exec scripted (add_subnet "public" (Some 4) (PInt 9) 4 false)
    [Ok (PList [catalog_item "sov_sec_ip_addresses_pub" "4" "four" 1;
                catalog_item "sov_sec_ip_addresses_pub" "4" "free" 0]);
     Ok (PStr "receipt")]
  = ([catalog_call], Ok PNone, [Ok (PStr "receipt")]).
Proof.
  apply (add_subnet_falsy_price_is_no_price scripted _ _
           "public" (Some 4) (PInt 9) 4 false
           "sov_sec_ip_addresses_pub" (Some 4) None
           (PList [catalog_item "sov_sec_ip_addresses_pub" "4" "four" 1;
                   catalog_item "sov_sec_ip_addresses_pub" "4" "free" 0])
           [catalog_item "sov_sec_ip_addresses_pub" "4" "four" 1] []
           (catalog_item "sov_sec_ip_addresses_pub" "4" "free" 0) (PInt 0)).
  - reflexivity.
  - reflexivity.
  - reflexivity.
  - repeat constructor.
  - vm_compute; reflexivity.
  - reflexivity.
  - reflexivity.
  - constructor.
Defined.

(** ** summary_by_datacenter: all six counters, order, conservation *)

(** The loop body, as one read of the VLAN followed by one update. *)
Lemma count_vlan_eq vlan m :
  count_vlan vlan m =
    (vlan_reading vlan ≫= fun kc =>
       Ok (<[kc.1 := add_counts (default no_counts (m !! kc.1)) kc.2]> m)).
Proof.
  unfold count_vlan, vlan_reading.
  destruct (getitem vlan "primaryRouter") as [router|]; [|done]. cbn.
  destruct (getitem router "datacenter") as [dc|]; [|done]. cbn.
  destruct (getitem dc "name") as [name|]; [|done]. cbn.
  destruct (hash_key name) as [key|]; [|done]. cbn.
  destruct (getitem vlan "hardware" ≫= py_len); [|done]. cbn.
  destruct (getitem vlan "networkComponents" ≫= py_len); [|done]. cbn.
  destruct (getitem vlan "totalPrimaryIpAddressCount" ≫= int_operand);
    [|done]. cbn.
  destruct (getitem vlan "subnets" ≫= py_len); [|done]. cbn.
  by destruct (getitem vlan "virtualGuests" ≫= py_len).
Qed.

Lemma vlan_reading_inv vlan key inc :
  vlan_reading vlan = Ok (key, inc) ->
  vlan_key vlan = Ok key
  /\ inc = Counters (vlan_size "hardware" vlan)
             (vlan_size "networkComponents" vlan) (vlan_ips vlan)
             (vlan_size "subnets" vlan) (vlan_size "virtualGuests" vlan) 1.
Proof.
  unfold vlan_reading, vlan_key, vlan_size, vlan_ips.
  destruct (getitem vlan "primaryRouter") as [router|]; [|done]. cbn.
  destruct (getitem router "datacenter") as [dc|]; [|done]. cbn.
  destruct (getitem dc "name") as [name|]; [|done]. cbn.
  destruct (hash_key name) as [key'|]; [|done]. cbn.
  destruct (getitem vlan "hardware" ≫= py_len); [|done]. cbn.
  destruct (getitem vlan "networkComponents" ≫= py_len); [|done]. cbn.
  destruct (getitem vlan "totalPrimaryIpAddressCount" ≫= int_operand);
    [|done]. cbn.
  destruct (getitem vlan "subnets" ≫= py_len); [|done]. cbn.
  destruct (getitem vlan "virtualGuests" ≫= py_len); [|done]. cbn.
  by intros [= <- <-].
Qed.

Lemma count_vlan_is_ok vlan m :
  is_ok (count_vlan vlan m) = countable_vlan vlan.
Proof.
  unfold countable_vlan. rewrite !count_vlan_eq.
  by destruct (vlan_reading vlan).
Qed.

Lemma count_vlans_countable vlans m :
  is_ok (count_vlans vlans m) = true ->
  Forall (fun vlan => countable_vlan vlan = true) vlans.
Proof.
  revert m. induction vlans as [|vlan vlans IH]; intros m; [done|].
  cbn [count_vlans]. pose proof (count_vlan_is_ok vlan m) as Hvlan.
  destruct (count_vlan vlan m) as [m1|]; [|done]. cbn.
  intros Hrest. constructor; [done|by eapply IH].
Qed.

Lemma datacenter_totals_cons_eq key vlan vlans :
  vlan_key vlan = Ok key ->
  datacenter_totals key (vlan :: vlans)
    = add_counts (datacenter_totals key vlans)
        (Counters (vlan_size "hardware" vlan)
           (vlan_size "networkComponents" vlan) (vlan_ips vlan)
           (vlan_size "subnets" vlan) (vlan_size "virtualGuests" vlan) 1).
Proof.
  intros Hkey. unfold datacenter_totals, add_counts.
  rewrite vlans_in_cons_eq by done. rewrite !fmap_cons, length_cons.
  unfold Z_sum. cbn [foldr hardwareCount networkingCount primaryIpCount
                       subnetCount virtualGuestCount vlanCount].
  f_equal; lia.
Qed.

Lemma datacenter_totals_cons_ne key vlan vlans :
  vlan_key vlan <> Ok key ->
  datacenter_totals key (vlan :: vlans) = datacenter_totals key vlans.
Proof.
  intros Hkey. unfold datacenter_totals. by rewrite vlans_in_cons_ne.
Qed.

Lemma add_counts_assoc a b c :
  add_counts (add_counts a b) c = add_counts a (add_counts c b).
Proof. unfold add_counts. cbn. f_equal; lia. Qed.

Lemma add_counts_no_counts c : add_counts no_counts c = c.
Proof. by destruct c. Qed.

Lemma add_counts_nil key c : add_counts c (datacenter_totals key []) = c.
Proof. destruct c. unfold add_counts. cbn. f_equal; lia. Qed.

(** The loop adds to every datacenter the totals of its VLANs. *)
Lemma count_vlans_totals vlans m m' :
  count_vlans vlans m = Ok m' ->
  forall key,
    default no_counts (m' !! key)
      = add_counts (default no_counts (m !! key))
          (datacenter_totals key vlans).
Proof.
  revert m. induction vlans as [|vlan vlans IH]; intros m.
  { intros [= <-] key. by rewrite add_counts_nil. }
  cbn [count_vlans]. rewrite count_vlan_eq.
  destruct (vlan_reading vlan) as [[key0 inc]|] eqn:Hread; [|done].
  intros Hrest key. cbn in Hrest. rewrite (IH _ Hrest key).
  destruct (vlan_reading_inv _ _ _ Hread) as [Hkey0 ->].
  destruct (decide (key0 = key)) as [->|Hne].
  - rewrite lookup_insert_eq, datacenter_totals_cons_eq by done.
    change (default no_counts (Some ?c)) with c.
    by rewrite add_counts_assoc.
  - rewrite lookup_insert_ne, datacenter_totals_cons_ne by congruence.
    done.
Qed.

Lemma datacenter_totals_Permutation key l1 l2 :
  l1 ≡ₚ l2 -> datacenter_totals key l1 = datacenter_totals key l2.
Proof.
  intros Hperm. unfold datacenter_totals.
  assert (vlans_in key l1 ≡ₚ vlans_in key l2) as Hin.
  { unfold vlans_in. by rewrite Hperm. }
  f_equal; try (apply Z_sum_Permutation; by rewrite Hin).
  by rewrite Hin.
Qed.

Lemma summary_outcome {S} (handle : S -> call -> result pyval * S)
    s s1 response vlans :
  handle s vlans_call = (Ok response, s1) ->
  py_iter response = Ok vlans ->
  outcome handle summary_by_datacenter s = count_vlans vlans ∅.
Proof.
  intros Hcall Hiter. unfold outcome.
  rewrite (summary_by_datacenter_run handle s s1 response Hcall).
  by rewrite Hiter.
Qed.

(** X11.  In the summary every datacenter holds the totals of the VLANs listed in
    it: hardwareCount, networkingCount, subnetCount and virtualGuestCount
    are the summed sizes of the VLANs' hardware, networkComponents, subnets
    and virtualGuests, primaryIpCount is the sum of their
    totalPrimaryIpAddressCount, and vlanCount is their number. *)
Theorem summary_by_datacenter_totals {S}
    (handle : S -> call -> result pyval * S) (s s1 : S)
    (response : pyval) (vlans : list pyval) (m : gmap pykey counters)
    (key : pykey) (c : counters) :
  handle s vlans_call = (Ok response, s1) ->
  py_iter response = Ok vlans ->
  outcome handle summary_by_datacenter s = Ok m ->
  m !! key = Some c ->
  c = datacenter_totals key vlans.
Proof.
  intros Hcall Hiter Hout Hc.
  rewrite (summary_outcome handle s s1 response vlans) in Hout by done.
  pose proof (count_vlans_totals _ _ _ Hout key) as Htotals.
  rewrite Hc, lookup_empty in Htotals. cbn in Htotals.
  by rewrite add_counts_no_counts in Htotals.
Qed.

Lemma summary_by_datacenter_totals_witness :
  Counters 5 1 6 1 0 2
  = datacenter_totals (KStr "dal05")
      [vlan_record "dal05" [PInt 1; PInt 2] [PNone] [] [] 4;
       vlan_record "sjc01" [PInt 6] [PNone] [] [] 0;
       vlan_record "dal05" [PInt 3; PInt 4; PInt 5] [] [PNone] [] 2].
Proof.
  apply (summary_by_datacenter_totals scripted
           [Ok (PList [vlan_record "dal05" [PInt 1; PInt 2] [PNone] [] [] 4;
                       vlan_record "sjc01" [PInt 6] [PNone] [] [] 0;
                       vlan_record "dal05" [PInt 3; PInt 4; PInt 5]
                         [] [PNone] [] 2])] []
           (PList [vlan_record "dal05" [PInt 1; PInt 2] [PNone] [] [] 4;
                   vlan_record "sjc01" [PInt 6] [PNone] [] [] 0;
                   vlan_record "dal05" [PInt 3; PInt 4; PInt 5]
                     [] [PNone] [] 2])
           _
           (<[KStr "sjc01" := Counters 1 1 0 0 0 1]>
              (<[KStr "dal05" := Counters 5 1 6 1 0 2]> ∅))
           (KStr "dal05")).
  - reflexivity.
  - reflexivity.
  - vm_compute; reflexivity.
  - vm_compute; reflexivity.
Defined.

Lemma count_vlans_Permutation l1 l2 m :
  l1 ≡ₚ l2 -> count_vlans l1 ∅ = Ok m -> count_vlans l2 ∅ = Ok m.
Proof.
  intros Hperm Hrun.
  assert (is_ok (count_vlans l2 ∅) = true) as Hok.
  { apply count_vlans_ok. rewrite <- Hperm.
    apply (count_vlans_countable l1 ∅). by rewrite Hrun. }
  destruct (count_vlans l2 ∅) as [m2|] eqn:Hrun2; [|done].
  f_equal. apply map_eq. intros key.
  pose proof (count_vlans_totals _ _ _ Hrun key) as Ht1.
  pose proof (count_vlans_totals _ _ _ Hrun2 key) as Ht2.
  pose proof (proj1 (count_vlans_from_empty _ _ key Hrun)) as Hd1.
  pose proof (proj1 (count_vlans_from_empty _ _ key Hrun2)) as Hd2.
  rewrite lookup_empty in Ht1, Ht2. cbn in Ht1, Ht2.
  rewrite add_counts_no_counts in Ht1, Ht2.
  rewrite (datacenter_totals_Permutation key l1 l2 Hperm) in Ht1.
  rewrite elem_of_dom in Hd1, Hd2. setoid_rewrite Hperm in Hd1.
  rewrite <- Hd2 in Hd1.
  destruct (m !! key) as [c1|], (m2 !! key) as [c2|]; cbn in *.
  - congruence.
  - assert (is_Some (@None counters)) as [? [=]]. by apply Hd1; eexists.
  - assert (is_Some (@None counters)) as [? [=]]. by apply Hd1; eexists.
  - done.
Qed.

(** X12.  The summary does not depend on the order in which the VLANs are
    listed: two listings with the same VLANs in another order are
    summarised alike. *)
Theorem summary_by_datacenter_order_independent {S S'}
    (handle : S -> call -> result pyval * S)
    (handle' : S' -> call -> result pyval * S') (s s1 : S) (s' s1' : S')
    (response response' : pyval) (vlans vlans' : list pyval)
    (m : gmap pykey counters) :
  handle s vlans_call = (Ok response, s1) ->
  py_iter response = Ok vlans ->
  handle' s' vlans_call = (Ok response', s1') ->
  py_iter response' = Ok vlans' ->
  vlans ≡ₚ vlans' ->
  outcome handle summary_by_datacenter s = Ok m ->
  outcome handle' summary_by_datacenter s' = Ok m.
Proof.
  intros Hcall Hiter Hcall' Hiter' Hperm.
  rewrite (summary_outcome handle s s1 response vlans) by done.
  rewrite (summary_outcome handle' s' s1' response' vlans') by done.
  by apply count_vlans_Permutation.
Qed.

Lemma summary_by_datacenter_order_independent_witness :
  outcome scripted summary_by_datacenter
    [Ok (PList [vlan_record "sjc01" [PInt 6] [PNone] [] [] 0;
                vlan_record "dal05" [PInt 1; PInt 2] [PNone] [] [] 4])]
  = Ok (<[KStr "sjc01" := Counters 1 1 0 0 0 1]>
          (<[KStr "dal05" := Counters 2 1 4 0 0 1]> ∅)).
Proof.
  apply (summary_by_datacenter_order_independent scripted scripted
           [Ok (PList [vlan_record "dal05" [PInt 1; PInt 2] [PNone] [] [] 4;
                       vlan_record "sjc01" [PInt 6] [PNone] [] [] 0])] []
           [Ok (PList [vlan_record "sjc01" [PInt 6] [PNone] [] [] 0;
                       vlan_record "dal05" [PInt 1; PInt 2] [PNone] [] [] 4])]
           []
           (PList [vlan_record "dal05" [PInt 1; PInt 2] [PNone] [] [] 4;
                   vlan_record "sjc01" [PInt 6] [PNone] [] [] 0])
           (PList [vlan_record "sjc01" [PInt 6] [PNone] [] [] 0;
                   vlan_record "dal05" [PInt 1; PInt 2] [PNone] [] [] 4])
           [vlan_record "dal05" [PInt 1; PInt 2] [PNone] [] [] 4;
            vlan_record "sjc01" [PInt 6] [PNone] [] [] 0]
           [vlan_record "sjc01" [PInt 6] [PNone] [] [] 0;
            vlan_record "dal05" [PInt 1; PInt 2] [PNone] [] [] 4]).
  - reflexivity.
  - reflexivity.
  - reflexivity.
  - reflexivity.
  - apply perm_swap.
  - vm_compute; reflexivity.
Defined.

Lemma counted_vlans_insert (m : gmap pykey counters) key c :
  vlanCount c = vlanCount (default no_counts (m !! key)) + 1 ->
  counted_vlans (<[key := c]> m) = counted_vlans m + 1.
Proof.
  intros Hc. unfold counted_vlans.
  destruct (m !! key) as [c0|] eqn:Hkey; cbn in Hc.
  - rewrite <- (insert_delete_id m key c0 Hkey) at 2.
    rewrite <- (insert_delete_eq m key c).
    rewrite !(Z_sum_Permutation _ _
               (fmap_Permutation _ _ _
                  (map_to_list_insert _ _ _ (lookup_delete_eq m key)))).
    rewrite !fmap_cons. unfold Z_sum. cbn [foldr snd]. lia.
  - rewrite (Z_sum_Permutation _ _
               (fmap_Permutation _ _ _ (map_to_list_insert _ _ _ Hkey))).
    rewrite fmap_cons. unfold Z_sum. cbn [foldr snd]. lia.
Qed.

Lemma count_vlans_counted vlans m m' :
  count_vlans vlans m = Ok m' ->
  counted_vlans m' = counted_vlans m + Z.of_nat (length vlans).
Proof.
  revert m. induction vlans as [|vlan vlans IH]; intros m.
  { intros [= <-]. cbn. lia. }
  cbn [count_vlans]. destruct (count_vlan vlan m) as [m1|] eqn:Hstep; [|done].
  intros Hrest. cbn in Hrest. rewrite (IH _ Hrest).
  destruct (count_vlan_inv _ _ _ Hstep)
    as (key & hardware & c & _ & _ & -> & Hvc & _).
  rewrite (counted_vlans_insert m key c Hvc), length_cons. lia.
Qed.

(** X13.  Every listed VLAN is counted once: the vlanCount entries of the summary
    add up to the number of VLANs in the listing. *)
Theorem summary_by_datacenter_counts_every_vlan {S}
    (handle : S -> call -> result pyval * S) (s s1 : S)
    (response : pyval) (vlans : list pyval) (m : gmap pykey counters) :
  handle s vlans_call = (Ok response, s1) ->
  py_iter response = Ok vlans ->
  outcome handle summary_by_datacenter s = Ok m ->
  counted_vlans m = Z.of_nat (length vlans).
Proof.
  intros Hcall Hiter Hout.
  rewrite (summary_outcome handle s s1 response vlans) in Hout by done.
  rewrite (count_vlans_counted _ _ _ Hout).
  unfold counted_vlans. by rewrite map_to_list_empty.
Qed.

Lemma summary_by_datacenter_counts_every_vlan_witness :
  counted_vlans (<[KStr "sjc01" := Counters 1 1 0 0 0 1]>
                   (<[KStr "dal05" := Counters 5 1 6 1 0 2]> ∅))
  = Z.of_nat
      (length [vlan_record "dal05" [PInt 1; PInt 2] [PNone] [] [] 4;
               vlan_record "sjc01" [PInt 6] [PNone] [] [] 0;
               vlan_record "dal05" [PInt 3; PInt 4; PInt 5]
                 [] [PNone] [] 2]).
Proof.
  apply (summary_by_datacenter_counts_every_vlan scripted
           [Ok (PList [vlan_record "dal05" [PInt 1; PInt 2] [PNone] [] [] 4;
                       vlan_record "sjc01" [PInt 6] [PNone] [] [] 0;
                       vlan_record "dal05" [PInt 3; PInt 4; PInt 5]
                         [] [PNone] [] 2])] []
           (PList [vlan_record "dal05" [PInt 1; PInt 2] [PNone] [] [] 4;
                   vlan_record "sjc01" [PInt 6] [PNone] [] [] 0;
                   vlan_record "dal05" [PInt 3; PInt 4; PInt 5]
                     [] [PNone] [] 2])).
  - reflexivity.
  - reflexivity.
  - vm_compute; reflexivity.
Defined.

Lemma count_vlans_first_error pre bad post m e :
  Forall (fun vlan => countable_vlan vlan = true) pre ->
  count_vlan bad ∅ = Err e ->
  count_vlans (pre ++ bad :: post) m = Err e.
Proof.
  intros Hpre Hbad. revert m.
  induction Hpre as [|vlan pre Hvlan _ IH]; intros m; cbn [app count_vlans].
  - rewrite count_vlan_eq in Hbad |- *.
    by destruct (vlan_reading bad).
  - rewrite <- (count_vlan_is_ok vlan m) in Hvlan.
    destruct (count_vlan vlan m) as [m1|]; [|done]. apply IH.
Qed.

(** X14.  The summary is all or nothing.  It is returned exactly when every
    listed VLAN can be counted; otherwise the call raises what the first
    VLAN that cannot be counted raises (the missing-key error of the field
    it lacks), and the counts gathered so far are lost. *)
Theorem summary_by_datacenter_all_or_nothing {S}
    (handle : S -> call -> result pyval * S) (s s1 : S)
    (response : pyval) (vlans : list pyval) :
  handle s vlans_call = (Ok response, s1) ->
  py_iter response = Ok vlans ->
  (is_ok (outcome handle summary_by_datacenter s) = true
   <-> Forall (fun vlan => countable_vlan vlan = true) vlans)
  /\ (forall pre bad post e,
        vlans = pre ++ bad :: post ->
        Forall (fun vlan => countable_vlan vlan = true) pre ->
        count_vlan bad ∅ = Err e ->
        exec handle summary_by_datacenter s = ([vlans_call], Err e, s1))
  /\ (forall pre entries post,
        vlans = pre ++ PDict entries :: post ->
        Forall (fun vlan => countable_vlan vlan = true) pre ->
        dict_get "primaryRouter" entries = None ->
        exec handle summary_by_datacenter s
          = ([vlans_call], Err (KeyError "primaryRouter"), s1)).
Proof.
  intros Hcall Hiter.
  rewrite (summary_outcome handle s s1 response vlans) by done.
  assert (forall pre bad post e,
            vlans = pre ++ bad :: post ->
            Forall (fun vlan => countable_vlan vlan = true) pre ->
            count_vlan bad ∅ = Err e ->
            exec handle summary_by_datacenter s = ([vlans_call], Err e, s1))
    as Hfirst.
  { intros pre bad post e -> Hpre Hbad.
    rewrite (summary_by_datacenter_run handle s s1 response Hcall), Hiter.
    cbn. by rewrite (count_vlans_first_error pre bad post ∅ e). }
  split_and!.
  - split; [apply count_vlans_countable|apply count_vlans_ok].
  - done.
  - intros pre entries post Hvlans Hpre Hnone.
    eapply Hfirst; [done..|].
    unfold count_vlan. cbn. by rewrite Hnone.
Qed.

Lemma summary_by_datacenter_all_or_nothing_witness :
  exec scripted summary_by_datacenter
    [Ok (PList [vlan_record "dal05" [PInt 1; PInt 2] [PNone] [] [] 4;
                PDict [("hardware", PList [])];
                vlan_record "sjc01" [PInt 6] [PNone] [] [] 0])]
  = ([vlans_call], Err (KeyError "primaryRouter"), []).
Proof.
  apply (proj2 (proj2
           (summary_by_datacenter_all_or_nothing scripted
              [Ok (PList [vlan_record "dal05" [PInt 1; PInt 2] [PNone] [] [] 4;
                          PDict [("hardware", PList [])];
                          vlan_record "sjc01" [PInt 6] [PNone] [] [] 0])] []
              (PList [vlan_record "dal05" [PInt 1; PInt 2] [PNone] [] [] 4;
                      PDict [("hardware", PList [])];
                      vlan_record "sjc01" [PInt 6] [PNone] [] [] 0])
              _ eq_refl eq_refl))
           [vlan_record "dal05" [PInt 1; PInt 2] [PNone] [] [] 4]
           [("hardware", PList [])]
           [vlan_record "sjc01" [PInt 6] [PNone] [] [] 0]).
  - reflexivity.
  - repeat constructor.
  - reflexivity.
Defined.

(** ** get_subnet, cancel_subnet and the listings: further behaviour *)

Lemma get_subnet_run {S} (handle : S -> call -> result pyval * S)
    query_filter resolve_ids s s1 id kwargs resolution r :
  exec handle (resolve_ids id (subnet_resolvers query_filter)) s
    = (resolution, r, s1) ->
  exec handle (get_subnet query_filter resolve_ids id kwargs) s =
    match r ≫= (fun ids => getindex ids 0) with
    | Ok first =>
        (resolution ++ [fetch_call first kwargs],
         (handle s1 (fetch_call first kwargs)).1,
         (handle s1 (fetch_call first kwargs)).2)
    | Err e => (resolution, Err e, s1)
    end.
Proof.
  intros Hresolve. unfold get_subnet. fold (with_subnet_mask kwargs).
  rewrite exec_bind, Hresolve. destruct r as [ids|e]; [|done].
  rewrite exec_bind, exec_lift. cbn [mbind result_bind].
  destruct (getindex ids 0) as [first|e]; [|by rewrite app_nil_r].
  rewrite exec_invoke. by rewrite app_nil_l.
Qed.

(** X15.  Of the ids a resolution yields, [get_subnet] fetches the first and
    ignores the others; an empty resolution raises the index error of
    [...[0]] and nothing is fetched; a failed resolution is passed on. *)
Theorem get_subnet_fetches_first_id {S}
    (handle : S -> call -> result pyval * S)
    (query_filter : pyval -> pyval)
    (resolve_ids : pyval -> list (pyval -> prog pyval) -> prog pyval)
    (s s1 : S) (id : pyval) (kwargs : list (string * pyval))
    (resolution : list call) (r : result pyval) :
  exec handle (resolve_ids id (subnet_resolvers query_filter)) s
    = (resolution, r, s1) ->
  (forall first others,
     r = Ok (PList (first :: others)) ->
     exec handle (get_subnet query_filter resolve_ids id kwargs) s
       = (resolution ++ [fetch_call first kwargs],
          (handle s1 (fetch_call first kwargs)).1,
          (handle s1 (fetch_call first kwargs)).2))
  /\ (r = Ok (PList []) ->
      exec handle (get_subnet query_filter resolve_ids id kwargs) s
        = (resolution, Err IndexError, s1))
  /\ (forall e,
        r = Err e ->
        exec handle (get_subnet query_filter resolve_ids id kwargs) s
          = (resolution, Err e, s1)).
Proof.
  intros Hresolve.
  rewrite (get_subnet_run handle _ _ s s1 id kwargs resolution r Hresolve).
  split_and!; by intros; subst r.
Qed.

Lemma get_subnet_fetches_first_id_witness :
  exec scripted
    (get_subnet (fun v => v) (fun _ _ => Ret (PList [])) (PStr "10.0.0.0") [])
    [Ok PNone]
  = ([], Err IndexError, [Ok PNone]).
Proof.
  apply (proj1 (proj2
           (get_subnet_fetches_first_id scripted (fun v => v)
              (fun _ _ => Ret (PList [])) [Ok PNone] [Ok PNone]
              (PStr "10.0.0.0") [] [] (Ok (PList [])) eq_refl))).
  reflexivity.
Defined.

Lemma with_subnet_mask_supplied kwargs m :
  dict_get "mask" kwargs = Some m -> with_subnet_mask kwargs = kwargs.
Proof. unfold with_subnet_mask, dict_has. by intros ->. Qed.

Lemma with_subnet_mask_default kwargs :
  dict_get "mask" kwargs = None ->
  dict_get "mask" (with_subnet_mask kwargs)
    = Some (PStr "mask[hardware,datacenter,ipAddressCount,virtualGuests]")
  /\ forall k, k <> "mask" ->
       dict_get k (with_subnet_mask kwargs) = dict_get k kwargs.
Proof.
  unfold with_subnet_mask, dict_has. intros ->. cbn [negb]. split.
  - by rewrite dict_get_set_eq.
  - intros k Hk. apply dict_get_set_ne. by apply String.eqb_neq.
Qed.

(** X16.  The mask of the fetch: a mask supplied by the caller is forwarded as it
    is, with every other keyword argument; without one the standard subnet
    mask "mask[hardware,datacenter,ipAddressCount,virtualGuests]" is added
    and the other keyword arguments are forwarded unchanged. *)
Theorem get_subnet_mask_choice {S}
    (handle : S -> call -> result pyval * S)
    (query_filter : pyval -> pyval)
    (resolve_ids : pyval -> list (pyval -> prog pyval) -> prog pyval)
    (s s1 : S) (id first : pyval) (others : list pyval)
    (kwargs : list (string * pyval)) (resolution : list call) :
  exec handle (resolve_ids id (subnet_resolvers query_filter)) s
    = (resolution, Ok (PList (first :: others)), s1) ->
  exists sent,
    trace handle (get_subnet query_filter resolve_ids id kwargs) s
      = resolution
        ++ [Call "Network_Subnet" "getObject" [] (("id", first) :: sent)]
    /\ (forall m, dict_get "mask" kwargs = Some m -> sent = kwargs)
    /\ (dict_get "mask" kwargs = None ->
        dict_get "mask" sent
          = Some (PStr "mask[hardware,datacenter,ipAddressCount,virtualGuests]")
        /\ forall k, k <> "mask" -> dict_get k sent = dict_get k kwargs).
Proof.
  intros Hresolve. exists (with_subnet_mask kwargs). split_and!.
  - unfold trace.
    by rewrite (get_subnet_run handle _ _ s s1 id kwargs resolution _
                  Hresolve).
  - apply with_subnet_mask_supplied.
  - apply with_subnet_mask_default.
Qed.

Lemma get_subnet_mask_choice_witness :
  exists sent,
    trace scripted
      (get_subnet (fun v => v) (fun i _ => Ret (PList [i; PInt 2]))
         (PInt 1) [("limit", PInt 5)]) [Ok PNone]
      = [] ++ [Call "Network_Subnet" "getObject" [] (("id", PInt 1) :: sent)]
    /\ (forall m, dict_get "mask" [("limit", PInt 5)] = Some m ->
        sent = [("limit", PInt 5)])
    /\ (dict_get "mask" [("limit", PInt 5)] = None ->
        dict_get "mask" sent
          = Some (PStr "mask[hardware,datacenter,ipAddressCount,virtualGuests]")
        /\ forall k, k <> "mask" ->
             dict_get k sent = dict_get k [("limit", PInt 5)]).
Proof.
  apply (get_subnet_mask_choice scripted (fun v => v)
           (fun i _ => Ret (PList [i; PInt 2])) [Ok PNone] [Ok PNone]
           (PInt 1) (PInt 1) [PInt 2] [("limit", PInt 5)] []).
  reflexivity.
Defined.

(** X17.  [cancel_subnet] cancels nothing unless it read a billing item id: when
    the fetch fails, when the billing item has no id, or when the billing
    item is None, the error is raised after the fetch and cancelService is
    never called. *)
Theorem cancel_subnet_never_cancels_on_error {S}
    (handle : S -> call -> result pyval * S)
    (query_filter : pyval -> pyval)
    (resolve_ids : pyval -> list (pyval -> prog pyval) -> prog pyval)
    (s s1 : S) (id first : pyval) (others : list pyval)
    (resolution : list call) :
  exec handle (resolve_ids id (subnet_resolvers query_filter)) s
    = (resolution, Ok (PList (first :: others)), s1) ->
  (forall e s2,
     handle s1 (fetch_call first [("mask", PStr "mask[id, billingItem.id]")])
       = (Err e, s2) ->
     exec handle (cancel_subnet query_filter resolve_ids id) s
       = (resolution
            ++ [fetch_call first [("mask", PStr "mask[id, billingItem.id]")]],
          Err e, s2))
  /\ (forall subnet s2 entries,
        handle s1
          (fetch_call first [("mask", PStr "mask[id, billingItem.id]")])
          = (Ok subnet, s2) ->
        getitem subnet "billingItem" = Ok (PDict entries) ->
        dict_get "id" entries = None ->
        exec handle (cancel_subnet query_filter resolve_ids id) s
          = (resolution
               ++ [fetch_call first
                     [("mask", PStr "mask[id, billingItem.id]")]],
             Err (KeyError "id"), s2))
  /\ (forall subnet s2,
        handle s1
          (fetch_call first [("mask", PStr "mask[id, billingItem.id]")])
          = (Ok subnet, s2) ->
        getitem subnet "billingItem" = Ok PNone ->
        exec handle (cancel_subnet query_filter resolve_ids id) s
          = (resolution
               ++ [fetch_call first
                     [("mask", PStr "mask[id, billingItem.id]")]],
             Err TypeError, s2)).
Proof.
  intros Hresolve.
  pose proof (get_subnet_run handle query_filter resolve_ids s s1 id
                [("mask", PStr "mask[id, billingItem.id]")] resolution _
                Hresolve) as Hget.
  cbn [mbind result_bind getindex lookup list_lookup] in Hget.
  unfold cancel_subnet. split_and!.
  - intros e s2 Hfetch. rewrite Hfetch in Hget. cbn in Hget.
    by rewrite exec_bind, Hget.
  - intros subnet s2 entries Hfetch Hitem Hid.
    rewrite Hfetch in Hget. cbn in Hget.
    rewrite exec_bind, Hget, exec_bind, exec_lift, Hitem.
    rewrite exec_bind, exec_lift. cbn. rewrite Hid. by rewrite !app_nil_r.
  - intros subnet s2 Hfetch Hitem.
    rewrite Hfetch in Hget. cbn in Hget.
    rewrite exec_bind, Hget, exec_bind, exec_lift, Hitem.
    rewrite exec_bind, exec_lift. cbn. by rewrite !app_nil_r.
Qed.

Lemma cancel_subnet_never_cancels_on_error_witness :
  exec scripted
    (cancel_subnet (fun v => v) (fun i _ => Ret (PList [i])) (PInt 77))
    [Ok (PDict [("id", PInt 77); ("billingItem", PDict [])]);
     Ok (PBool true)]
  = ([] ++ [fetch_call (PInt 77) [("mask", PStr "mask[id, billingItem.id]")]],
     Err (KeyError "id"), [Ok (PBool true)]).
Proof.
  apply (proj1 (proj2
           (cancel_subnet_never_cancels_on_error scripted (fun v => v)
              (fun i _ => Ret (PList [i]))
              [Ok (PDict [("id", PInt 77); ("billingItem", PDict [])]);
               Ok (PBool true)]
              _ (PInt 77) (PInt 77) [] [] eq_refl))
           (PDict [("id", PInt 77); ("billingItem", PDict [])])
           [Ok (PBool true)] []).
  - reflexivity.
  - reflexivity.
  - reflexivity.
Defined.

(** X18.  Criteria that are falsy (None, 0, an empty string) are not criteria:
    the listings behave as if they had not been given. *)
Theorem listings_ignore_falsy_criteria (query_filter : pyval -> pyval) :
  (forall datacenter vlan_number kwargs,
     truthy datacenter = false -> truthy vlan_number = false ->
     list_vlans query_filter datacenter vlan_number kwargs
       = list_vlans query_filter PNone PNone kwargs)
  /\ (forall identifier datacenter version kwargs,
        truthy identifier = false -> truthy datacenter = false ->
        truthy version = false ->
        list_subnets query_filter identifier datacenter version kwargs
          = list_subnets query_filter PNone PNone (PInt 0) kwargs).
Proof.
  split.
  - intros datacenter vlan_number kwargs Hdc Hvn.
    unfold list_vlans, add_criterion. by rewrite Hdc, Hvn.
  - intros identifier datacenter version kwargs Hid Hdc Hv.
    unfold list_subnets, add_criterion. by rewrite Hid, Hdc, Hv.
Qed.

Lemma listings_ignore_falsy_criteria_witness :
  list_vlans (fun v => PDict [("operation", v)]) (PStr "") (PInt 0)
    [("limit", PInt 10)]
  = list_vlans (fun v => PDict [("operation", v)]) PNone PNone
      [("limit", PInt 10)].
Proof.
  apply (proj1 (listings_ignore_falsy_criteria
                  (fun v => PDict [("operation", v)]))
           (PStr "") (PInt 0) [("limit", PInt 10)]).
  - reflexivity.
  - reflexivity.
Defined.

Lemma comprehension_Forall2 f xs ys :
  Forall2 (fun x y => f x = Ok y) xs ys -> comprehension f xs = Ok ys.
Proof.
  induction 1 as [|x y xs ys Hx _ IH]; [done|].
  cbn. rewrite Hx. cbn. by rewrite IH.
Qed.

Lemma comprehension_first_error f pre bad post e :
  Forall (fun x => is_ok (f x) = true) pre ->
  f bad = Err e ->
  comprehension f (pre ++ bad :: post) = Err e.
Proof.
  intros Hpre Hbad. induction Hpre as [|x pre Hx _ IH]; cbn.
  - by rewrite Hbad.
  - destruct (f x); [|done]. cbn. by rewrite IH.
Qed.

(** X19.  The resolver returns the ids of the subnets the lookup lists, one per
    record and in the order of the listing; a record without an id makes it
    raise the missing-key error instead. *)
Theorem get_subnet_by_identifier_ids {S}
    (handle : S -> call -> result pyval * S)
    (query_filter : pyval -> pyval) (s s1 : S)
    (identifier results : pyval) (records : list pyval) :
  handle s (lookup_call query_filter identifier) = (Ok results, s1) ->
  py_iter results = Ok records ->
  (forall ids,
     Forall2 (fun record id => getitem record "id" = Ok id) records ids ->
     exec handle (_get_subnet_by_identifier query_filter identifier) s
       = ([lookup_call query_filter identifier], Ok (PList ids), s1))
  /\ (forall pre entries post,
        records = pre ++ PDict entries :: post ->
        Forall (fun record => is_ok (getitem record "id") = true) pre ->
        dict_get "id" entries = None ->
        exec handle (_get_subnet_by_identifier query_filter identifier) s
          = ([lookup_call query_filter identifier], Err (KeyError "id"), s1)).
Proof.
  intros Hcall Hiter.
  rewrite get_subnet_by_identifier_run, Hcall, Hiter. cbn. split.
  - intros ids Hids. by rewrite (comprehension_Forall2 _ _ _ Hids).
  - intros pre entries post -> Hpre Hid.
    rewrite (comprehension_first_error _ pre _ post (KeyError "id"));
      [done..|].
    cbn. by rewrite Hid.
Qed.

Lemma get_subnet_by_identifier_ids_witness :
  exec scripted (_get_subnet_by_identifier (fun v => v) (PStr "10.0.1.0"))
    [Ok (PList [PDict [("id", PInt 7)]; PDict [("id", PInt 3)]])]
  = ([lookup_call (fun v => v) (PStr "10.0.1.0")],
     Ok (PList [PInt 7; PInt 3]), []).
Proof.
  apply (proj1
           (get_subnet_by_identifier_ids scripted (fun v => v)
              [Ok (PList [PDict [("id", PInt 7)]; PDict [("id", PInt 3)]])]
              [] (PStr "10.0.1.0")
              (PList [PDict [("id", PInt 7)]; PDict [("id", PInt 3)]])
              [PDict [("id", PInt 7)]; PDict [("id", PInt 3)]]
              eq_refl eq_refl)).
  repeat constructor.
Defined.
